(** * The EMS controller of [apps/ems.py], embedded and verified

    [apps/ems.py] defines one class, [EMS], whose methods are the callbacks
    that tie a dual-tree container view ([mods.widgets.ContainerManager]),
    an edit pane ([mods.widgets.DataEntry]) and a database object
    ([mods.database.DEHCDatabase]) together.

    The embedding has two layers.

    - The methods of [EMS] are written as programs over the calls they make
      on their collaborators (module [EMS]).  A program is a tree of calls
      with Python's exceptions; running it against any implementation of
      the collaborators yields the sequence of calls made and the outcome.
    - The collaborators themselves are not part of [apps/ems.py].  Module
      [Model] gives them the behaviour that the design document of the
      subsystem states for them; every definition of that kind says so. *)

From Stdlib Require Import List String Bool Arith Lia.
Import ListNotations.
Local Open Scope string_scope.
Local Open Scope list_scope.

Set Implicit Arguments.

(* ------------------------------------------------------------------------ *)
(** ** Python values that reach the callbacks *)

(** An item identifier ([_id] of a document). *)
Definition Id := string.

(** A document as the database hands it out: a Python dict from field names
    to strings, in insertion order (keys are distinct in a dict). *)
Definition Doc := list (string * string).

(** The values the callbacks receive through [*args]: [None], a string
    (an item id), a list of strings (a chain of parent ids) or a document. *)
Inductive Arg : Type :=
| ANone
| AStr (s : string)
| AList (l : list string)
| ADoc (d : Doc).

(** The exceptions that can end a callback. *)
Inductive Exn : Type :=
| ValueError                      (* unpacking too few / too many values *)
| TypeError                       (* len() or iteration of None *)
| KeyError (key : string)         (* doc[key] on a missing key *)
| UnboundLocalError (var : string)
| AttributeError (attr : string)  (* self.cm / self.de before prepare() *)
| TclError                        (* raised by the tk tree widget *)
| NotFound (id : string)          (* item_get on an unknown id *)
| StoreFailure (reason : string). (* a mutation rejected by the store *)

Definition is_not_none (a : Arg) : bool :=
  match a with ANone => false | _ => true end.

(** [a == s] for a callback argument [a] and a string [s]. *)
Definition py_eq_str (a : Arg) (s : string) : bool :=
  match a with AStr x => String.eqb x s | _ => false end.

(** [d[key]]. *)
Fixpoint doc_get (d : Doc) (key : string) : option string :=
  match d with
  | [] => None
  | (k, v) :: rest => if String.eqb k key then Some v else doc_get rest key
  end.

(* ------------------------------------------------------------------------ *)
(** ** Calls on the collaborators *)

(** One constructor per call that [apps/ems.py] makes on [self.db],
    [self.cm], [self.de] and the tk root.  Constructor arguments that play no
    role in the callbacks (master, level, cats, bookmarks, the callbacks
    themselves) are left out. *)
Inductive Call : Type :=
| DbItemsQuery (cat : string) (fields : list string)
| DbItemGet (id : string) (fields : list string)
| DbContainerAdd (container : string) (item : Arg)
| NewContainerManager (topbase botbase : Doc)
| NewDataEntry
| NewButton (text : string)
| NewStatusBar
| RootRowconfigure (index weight : nat) (minsize : option nat)
| RootColumnconfigure (index weight : nat) (minsize : option nat)
| CmTopTreeParent (target : string)   (* cm.w_se_top.w_tr_tree.parent(target) *)
| CmTopTreeRebase (target : string)   (* cm.w_se_top.tree_rebase(target=target) *)
| CmHighlight (item : Arg)            (* cm.highlight(item=...) *)
| CmRefresh                           (* cm.refresh() *)
| CmOpen                              (* cm.open() *)
| CmBase                              (* cm.base() *)
| CmSetBase (newbase : Doc)           (* cm.base(newbase=...) *)
| CmSelections                        (* cm.selections() *)
| DeShow (doc : Arg).                 (* de.show(doc) *)

(** What each call returns. *)
Definition Reply (c : Call) : Type :=
  match c with
  | DbItemsQuery _ _ => list Doc
  | DbItemGet _ _ => Doc
  | CmTopTreeParent _ => string
  | CmBase => Doc
  | CmSelections => list string
  | _ => unit
  end.

(** The calls that change what the trees display. *)
Definition is_view_command (c : Call) : bool :=
  match c with
  | CmRefresh | CmHighlight _ | CmOpen | CmSetBase _ | CmTopTreeRebase _ => true
  | _ => false
  end.

(** The calls that go to the database. *)
Definition is_store_call (c : Call) : bool :=
  match c with
  | DbItemsQuery _ _ | DbItemGet _ _ | DbContainerAdd _ _ => true
  | _ => false
  end.

(** The calls that change the database. *)
Definition is_store_mutation (c : Call) : bool :=
  match c with DbContainerAdd _ _ => true | _ => false end.

(* ------------------------------------------------------------------------ *)
(** ** Programs *)

Inductive Prog (A : Type) : Type :=
| Ret (a : A)
| Raise (e : Exn)
| Do (c : Call) (k : Reply c -> Prog A).

Arguments Raise {A} e.

Fixpoint bind {A B : Type} (m : Prog A) (f : A -> Prog B) : Prog B :=
  match m with
  | Ret a => f a
  | Raise e => Raise e
  | Do c k => Do c (fun r => bind (k r) f)
  end.

Definition call (c : Call) : Prog (Reply c) := Do c (fun r => Ret r).

Declare Scope prog_scope.
Delimit Scope prog_scope with prog.
Notation "x <- m ;; k" := (bind m (fun x => k))
  (at level 100, m at next level, right associativity) : prog_scope.
Notation "m ;; k" := (bind m (fun _ => k))
  (at level 100, right associativity) : prog_scope.
Notation "' pat <- m ;; k" := (bind m (fun x => match x with pat => k end))
  (at level 100, pat pattern, m at next level, right associativity) : prog_scope.
Local Open Scope prog_scope.

(** [x, *_ = seq] *)
Definition unpack_first {A : Type} (seq : list A) : Prog A :=
  match seq with
  | x :: _ => Ret x
  | [] => Raise ValueError
  end.

(** [x, y, *_ = seq] *)
Definition unpack_first_two {A : Type} (seq : list A) : Prog (A * A) :=
  match seq with
  | x :: y :: _ => Ret (x, y)
  | _ => Raise ValueError
  end.

(** [x, = seq] *)
Definition unpack_single {A : Type} (seq : list A) : Prog A :=
  match seq with
  | [x] => Ret x
  | _ => Raise ValueError
  end.

(** [len(a)] *)
Definition py_len (a : Arg) : Prog nat :=
  match a with
  | ANone => Raise TypeError
  | AStr s => Ret (String.length s)
  | AList l => Ret (List.length l)
  | ADoc d => Ret (List.length d)
  end.

(** The elements that iterating over [a] yields: the characters of a string,
    the elements of a list, the keys of a dict. *)
Fixpoint chars (s : string) : list string :=
  match s with
  | EmptyString => []
  | String c rest => String c EmptyString :: chars rest
  end.

Definition py_iter (a : Arg) : Prog (list string) :=
  match a with
  | ANone => Raise TypeError
  | AStr s => Ret (chars s)
  | AList l => Ret l
  | ADoc d => Ret (map fst d)
  end.

(** [d[key]] *)
Definition py_getitem (d : Doc) (key : string) : Prog string :=
  match doc_get d key with
  | Some v => Ret v
  | None => Raise (KeyError key)
  end.

(* ------------------------------------------------------------------------ *)
(** ** The methods of [EMS] *)

Module EMS.

(** The fields asked of the database for a base record. *)
Definition base_fields : list string := ["_id"; "Display Name"].

(** [EMS.prepare] *)
Definition prepare : Prog unit :=
  docs <- call (DbItemsQuery "Evacuation" base_fields) ;;
  base <- unpack_first docs ;;
  call (NewContainerManager base base) ;;
  call NewDataEntry ;;
  call (NewButton "Refresh") ;;
  call NewStatusBar ;;
  call (RootRowconfigure 0 1000 None) ;;
  call (RootRowconfigure 1 1 (Some 16)) ;;
  call (RootColumnconfigure 0 1 (Some 48)) ;;
  call (RootColumnconfigure 1 1000 None).

(** [EMS.newchild] *)
Definition newchild (target : string) : Prog unit :=
  parent <- call (CmTopTreeParent target) ;;
  parent <- (if String.eqb parent ""
             then call (CmTopTreeRebase target) ;;
                  call (CmTopTreeParent target)
             else Ret parent) ;;
  call (CmHighlight (AStr parent)).

(** [EMS.refresh] *)
Definition refresh : Prog unit :=
  call CmRefresh.

(** [EMS.item_select] *)
Definition item_select (args : list Arg) : Prog unit :=
  doc <- unpack_single args ;;
  call (DeShow doc).

(** [EMS.delete] *)
Definition delete (args : list Arg) : Prog unit :=
  '(id, parents) <- unpack_first_two args ;;
  n <- py_len parents ;;
  if Nat.ltb 0 n then
    elems <- py_iter parents ;;
    parent <- unpack_first elems ;;
    base <- call CmBase ;;
    base_id <- py_getitem base "_id" ;;
    (if py_eq_str id base_id
     then newbase <- call (DbItemGet parent base_fields) ;;
          call (CmSetBase newbase)
     else Ret tt) ;;
    call CmRefresh ;;
    call (CmHighlight (AStr parent)) ;;
    call CmOpen
  else
    call CmRefresh.

(** [EMS.save].  The local [container] is bound only in the first
    conditional; [None] stands for the unbound variable. *)
Definition save (args : list Arg) : Prog unit :=
  id <- unpack_first args ;;
  container <- (if is_not_none id
                then sel <- call CmSelections ;;
                     container <- unpack_first sel ;;
                     call (DbContainerAdd container id) ;;
                     Ret (Some container)
                else Ret None) ;;
  call CmRefresh ;;
  if is_not_none id then
    match container with
    | Some c => call (CmHighlight (AStr c)) ;; call CmOpen
    | None => Raise (UnboundLocalError "container")
    end
  else Ret tt.

(** [EMS.show] *)
Definition show (args : list Arg) : Prog unit :=
  id <- unpack_first args ;;
  if is_not_none id then
    call CmRefresh ;;
    call (CmHighlight id)
  else Ret tt.

End EMS.

(* ------------------------------------------------------------------------ *)
(** ** Running a program against an implementation of the collaborators *)

(** How a call, or a whole callback, ends: with a value or with an exception,
    and in either case with the state it leaves behind. *)
Inductive Outcome (A W : Type) : Type :=
| Returned (a : A) (w : W)
| Raised (e : Exn) (w : W).

Arguments Returned {A W} a w.
Arguments Raised {A W} e w.

Definition final {A W : Type} (o : Outcome A W) : W :=
  match o with Returned _ w => w | Raised _ w => w end.

Section Interp.

Variable W : Type.
Variable handle : forall c : Call, W -> Outcome (Reply c) W.

(** [run p w] performs the calls of [p] in order, starting in [w]; it
    returns the calls made (a call that raises is still listed: it was
    made) and the outcome. *)
Fixpoint run {A : Type} (p : Prog A) (w : W) : list Call * Outcome A W :=
  match p with
  | Ret a => ([], Returned a w)
  | Raise e => ([], Raised e w)
  | Do c k =>
      match handle c w with
      | Returned r w' => let (t, o) := run (k r) w' in (c :: t, o)
      | Raised e w' => ([c], Raised e w')
      end
  end.

Definition trace {A : Type} (p : Prog A) (w : W) : list Call := fst (run p w).
Definition outcome {A : Type} (p : Prog A) (w : W) : Outcome A W := snd (run p w).

End Interp.

(* ------------------------------------------------------------------------ *)
(** ** The collaborators *)

(** [mods.database] and [mods.widgets] are not part of [apps/ems.py].  This
    module gives the database, the container manager and the edit pane the
    behaviour that the design document states for the Hierarchy Store
    Adapter (its section 6), the Tree Navigation Engine (section 4.1) and
    the edit pane (section 6). *)
Module Model.

(** *** The store *)

(** Modelled from the spec: the persisted items of [mods.database].  An
    item has a unique id, a category tag, named fields (with a display
    name) and at most one container edge pointing to it. *)
Record Item : Type := mkItem {
  it_id : Id;
  it_cat : string;
  it_fields : Doc;
  it_parent : option Id
}.

Definition Store := list Item.

(** Modelled from the spec: the store of [mods.database], looked up by id
    ([getItem]); ids are unique, the first item with the id is the item. *)
Fixpoint find_item (s : Store) (id : Id) : option Item :=
  match s with
  | [] => None
  | it :: rest => if String.eqb (it_id it) id then Some it else find_item rest id
  end.

(** Modelled from the spec: [getParent(id) -> parent_id | none]. *)
Definition get_parent (s : Store) (id : Id) : option Id :=
  match find_item s id with
  | Some it => it_parent it
  | None => None
  end.

(** Modelled from the spec: a field of an item's record; "_id" is the
    item's id. *)
Definition field_of (it : Item) (f : string) : option string :=
  if String.eqb f "_id" then Some (it_id it) else doc_get (it_fields it) f.

(** Modelled from the spec: the record of an item, restricted to the
    fields asked for. *)
Fixpoint record (it : Item) (fields : list string) : Doc :=
  match fields with
  | [] => []
  | f :: rest =>
      match field_of it f with
      | Some v => (f, v) :: record it rest
      | None => record it rest
      end
  end.

(** Modelled from the spec: [queryItems(category, fields) -> sequence of
    records]. *)
Definition items_query (s : Store) (cat : string) (fields : list string) : list Doc :=
  map (fun it => record it fields)
      (filter (fun it => String.eqb (it_cat it) cat) s).

(** Modelled from the spec: [getItem(id, fields) -> record | not-found]. *)
Definition item_get (s : Store) (id : Id) (fields : list string) : option Doc :=
  match find_item s id with
  | Some it => Some (record it fields)
  | None => None
  end.

(** Modelled from the spec: the store with the container edge from [c]
    to [x]; an item has one container, so the edge replaces an earlier
    one. *)
Definition set_parent (c x : Id) (s : Store) : Store :=
  map (fun it =>
         if String.eqb (it_id it) x
         then mkItem (it_id it) (it_cat it) (it_fields it) (Some c)
         else it) s.

Section WithPolicy.

(** Modelled from the spec: which edges the store refuses ("e.g., would
    create a cycle or violate the single-parent invariant") is the
    store's own business; [rejects s c x] is its reason for refusing the
    edge from [c] to [x] in [s], if it refuses. *)
Variable rejects : Store -> Id -> Id -> option string.

(** Modelled from the spec: [addContainerEdge(container_id, item_id) ->
    success | failure(reason)], success or explicit failure with no
    partial success: on success the edge is there, on failure the store
    is as it was. *)
Definition container_add (s : Store) (c : Id) (item : Arg) : string + Store :=
  match item with
  | AStr x =>
      match find_item s c, find_item s x with
      | Some _, Some _ =>
          match rejects s c x with
          | Some reason => inl reason
          | None => inr (set_parent c x s)
          end
      | _, _ => inl "unknown item"
      end
  | _ => inl "not an item id"
  end.

(** *** The two trees *)

(** Modelled from the spec: a tree node of [mods.widgets], the projection
    of an item in one tree: id, display label and parent in view, the
    empty string for a root-level node (the "no parent in view"
    sentinel that [newchild] tests for). *)
Record Node : Type := mkNode {
  n_id : Id;
  n_label : string;
  n_parent : Id
}.

(** Modelled from the spec: one tree view: its base record, the
    singleton category root it falls back to, its nodes, the ids of its
    open nodes and its selection. *)
Record Tree : Type := mkTree {
  t_base : Doc;
  t_home : Doc;
  t_nodes : list Node;
  t_open : list Id;
  t_sel : list Id
}.

(** Modelled from the spec: the container manager's upper and lower
    tree. *)
Record View : Type := mkView {
  v_top : Tree;
  v_bot : Tree
}.

(** The id that a base record carries. *)
Definition doc_id (d : Doc) : option Id := doc_get d "_id".

Definition root_id (d : Doc) : Id :=
  match doc_id d with Some i => i | None => "" end.

(** Modelled from the spec: reachability from the base along container
    edges.  An item has one container, so the chain is followed upward:
    [climbs s fuel base id] tells whether it arrives at [base] from [id]
    within [fuel] steps. *)
Fixpoint climbs (s : Store) (fuel : nat) (base id : Id) : bool :=
  if String.eqb id base then true
  else match fuel with
       | 0 => false
       | S f =>
           match get_parent s id with
           | Some p => climbs s f base p
           | None => false
           end
       end.

(** Modelled from the spec: [id] is [base] or reachable from it; the climb
    is given as many steps as the store has items. *)
Definition under (s : Store) (base id : Id) : bool :=
  climbs s (List.length s) base id.

(** Modelled from the spec: the display label of a node. *)
Definition label (it : Item) : string :=
  match doc_get (it_fields it) "Display Name" with Some l => l | None => "" end.

(** Modelled from the spec: the node of an item in a tree rooted at
    [base]; the base itself has no parent in view. *)
Definition node_of (base : Id) (it : Item) : Node :=
  mkNode (it_id it) (label it)
         (if String.eqb (it_id it) base then ""
          else match it_parent it with Some p => p | None => "" end).

(** Modelled from the spec: the nodes of a tree rooted at [base]: the
    base and every item reachable from it along container edges. *)
Definition build (s : Store) (base : Id) : list Node :=
  map (node_of base) (filter (fun it => under s base (it_id it)) s).

(** Modelled from the spec: a base record is a stale reference when its
    item is gone from the store. *)
Definition live (s : Store) (d : Doc) : bool :=
  match doc_id d with
  | Some i => match find_item s i with Some _ => true | None => false end
  | None => false
  end.

Definition mem (i : Id) (l : list Id) : bool := existsb (String.eqb i) l.

Definition tree_ids (t : Tree) : list Id := map n_id (t_nodes t).

(** Modelled from the spec: rebuilding one tree from the store.  Nodes
    are rebuilt wholesale below the base; open nodes stay open where they
    still exist; a base that is gone from the store is a stale
    reference: the tree falls back to the singleton category root and
    the selection is cleared. *)
Definition rebuild (s : Store) (t : Tree) : Tree :=
  let stale := negb (live s (t_base t)) in
  let base := if stale then t_home t else t_base t in
  let nodes := build s (root_id base) in
  mkTree base (t_home t) nodes
         (filter (fun i => mem i (map n_id nodes)) (t_open t))
         (if stale then []
          else filter (fun i => mem i (map n_id nodes)) (t_sel t)).

(** Modelled from the spec: [refresh()] re-queries the store below the
    current base and rebuilds both views. *)
Definition refresh (s : Store) (v : View) : View :=
  mkView (rebuild s (v_top v)) (rebuild s (v_bot v)).

(** Modelled from the spec: [setBase(node)] replaces the base and fully
    rebuilds both tree views from the store; the previous base and all
    its nodes are discarded. *)
Definition set_base (s : Store) (d : Doc) (v : View) : View :=
  mkView (rebuild s (mkTree d (t_home (v_top v)) [] [] []))
         (rebuild s (mkTree d (t_home (v_bot v)) [] [] [])).

(** Modelled from the spec: the container manager as constructed at
    application start, each tree built from the base it is given. *)
Definition new_view (s : Store) (topbase botbase : Doc) : View :=
  mkView (rebuild s (mkTree topbase topbase [] [] []))
         (rebuild s (mkTree botbase botbase [] [] [])).

(** Modelled from the spec: [parentOf(node)], the parent in view of a
    displayed node ([None] when the node is not displayed). *)
Fixpoint view_parent (nodes : list Node) (id : Id) : option Id :=
  match nodes with
  | [] => None
  | n :: rest =>
      if String.eqb (n_id n) id then Some (n_parent n) else view_parent rest id
  end.

(** Modelled from the spec: the ancestors in view of a node, the nodes
    that [highlight] opens to make it visible. *)
Fixpoint view_ancestors (nodes : list Node) (fuel : nat) (id : Id) : list Id :=
  match fuel with
  | 0 => []
  | S f =>
      match view_parent nodes id with
      | Some p => if String.eqb p "" then [] else p :: view_ancestors nodes f p
      | None => []
      end
  end.

(** Modelled from the spec: [highlight] in one tree. *)
Definition highlight_tree (i : Id) (t : Tree) : Tree :=
  if mem i (tree_ids t)
  then mkTree (t_base t) (t_home t) (t_nodes t)
              (view_ancestors (t_nodes t) (List.length (t_nodes t)) i ++ t_open t)
              [i]
  else t.

(** Modelled from the spec: [highlight(node)] sets the selection to the
    node and opens its ancestors; a node that is not displayed leaves
    the view as it is.  The tree concerned is the upper one, the one
    whose selection the callbacks read. *)
Definition highlight (item : Arg) (v : View) : View :=
  match item with
  | AStr i => mkView (highlight_tree i (v_top v)) (v_bot v)
  | _ => v
  end.

(** Modelled from the spec: [open()] expands the selected nodes. *)
Definition open (v : View) : View :=
  let t := v_top v in
  mkView (mkTree (t_base t) (t_home t) (t_nodes t) (t_sel t ++ t_open t) (t_sel t))
         (v_bot v).

(** Modelled from the spec: the rebase protocol.  The new base is the
    target's parent in the store or, when it has none, the target
    itself. *)
Definition anchor (s : Store) (target : Id) : Id :=
  match get_parent s target with Some p => p | None => target end.

(** Modelled from the spec: the record that [setBase] is given for the
    new base. *)
Definition base_record (s : Store) (id : Id) : Doc :=
  match item_get s id EMS.base_fields with
  | Some d => d
  | None => [("_id", id)]
  end.

(** Modelled from the spec: steps 1 and 2 of the rebase protocol, the
    query for the parent and [setBase]; steps 3 and 4 are [newchild]'s
    second look at the parent. *)
Definition tree_rebase (s : Store) (target : Id) (v : View) : View :=
  set_base s (base_record s (anchor s target)) v.

(** *** The edit pane *)

(** Modelled from the spec: the edit pane of [mods.widgets], which
    displays the record it was last shown. *)
Record Pane : Type := mkPane { p_shown : option Arg }.

(** *** The application state *)

(** Modelled from the spec: what the callbacks act on, the store behind
    [self.db], the container manager [self.cm] and the edit pane
    [self.de]; the last two exist once [prepare] has run. *)
Record World : Type := mkWorld {
  w_store : Store;
  w_cm : option View;
  w_de : option Pane
}.

(** A call on [self.cm]: an [AttributeError] before [prepare]. *)
Definition with_cm {A : Type} (w : World) (f : View -> Outcome A World)
  : Outcome A World :=
  match w_cm w with
  | Some v => f v
  | None => Raised (AttributeError "cm") w
  end.

Definition set_cm (w : World) (v : View) : World :=
  mkWorld (w_store w) (Some v) (w_de w).

(** Modelled from the spec: the answer of the collaborators to each call.
    Calls on the database read or change the store only; calls on the
    container manager read the store and change the trees only;
    [selections()], [base()] and the tree's [parent()] are reads; a failed
    call raises and leaves the state as it was. *)
Definition collab (c : Call) (w : World) : Outcome (Reply c) World :=
  match c as c0 return Outcome (Reply c0) World with
  | DbItemsQuery cat fields =>
      Returned (items_query (w_store w) cat fields) w
  | DbItemGet id fields =>
      match item_get (w_store w) id fields with
      | Some d => Returned d w
      | None => Raised (NotFound id) w
      end
  | DbContainerAdd c x =>
      match container_add (w_store w) c x with
      | inr s' => Returned tt (mkWorld s' (w_cm w) (w_de w))
      | inl reason => Raised (StoreFailure reason) w
      end
  | NewContainerManager topbase botbase =>
      Returned tt (set_cm w (new_view (w_store w) topbase botbase))
  | NewDataEntry =>
      Returned tt (mkWorld (w_store w) (w_cm w) (Some (mkPane None)))
  | NewButton _ => Returned tt w
  | NewStatusBar => Returned tt w
  | RootRowconfigure _ _ _ => Returned tt w
  | RootColumnconfigure _ _ _ => Returned tt w
  | CmTopTreeParent target =>
      with_cm w (fun v =>
        match view_parent (t_nodes (v_top v)) target with
        | Some p => Returned p w
        | None => Raised TclError w
        end)
  | CmTopTreeRebase target =>
      with_cm w (fun v => Returned tt (set_cm w (tree_rebase (w_store w) target v)))
  | CmHighlight item =>
      with_cm w (fun v => Returned tt (set_cm w (highlight item v)))
  | CmRefresh =>
      with_cm w (fun v => Returned tt (set_cm w (refresh (w_store w) v)))
  | CmOpen =>
      with_cm w (fun v => Returned tt (set_cm w (open v)))
  | CmBase =>
      with_cm w (fun v => Returned (t_base (v_top v)) w)
  | CmSetBase newbase =>
      with_cm w (fun v => Returned tt (set_cm w (set_base (w_store w) newbase v)))
  | CmSelections =>
      with_cm w (fun v => Returned (t_sel (v_top v)) w)
  | DeShow doc =>
      match w_de w with
      | Some _ => Returned tt (mkWorld (w_store w) (w_cm w) (Some (mkPane (Some doc))))
      | None => Raised (AttributeError "de") w
      end
  end.

End WithPolicy.

(** A store policy for examples: an item cannot contain itself, and cannot
    be put into something it contains. *)
Definition no_cycles (s : Store) (c x : Id) : option string :=
  if under s x c then Some "would create a cycle" else None.

End Model.

(* ------------------------------------------------------------------------ *)
(** ** Transitions *)

(** The events the controller reacts to, each served by one callback. *)
Inductive Request : Type :=
| SelectionChanged (args : list Arg)
| NewChildRequested (target : string)
| DeleteRequested (args : list Arg)
| SaveRequested (args : list Arg)
| ShowRequested (args : list Arg)
| RefreshRequested.

Definition serve (r : Request) : Prog unit :=
  match r with
  | SelectionChanged args => EMS.item_select args
  | NewChildRequested target => EMS.newchild target
  | DeleteRequested args => EMS.delete args
  | SaveRequested args => EMS.save args
  | ShowRequested args => EMS.show args
  | RefreshRequested => EMS.refresh
  end.

(** [quiet P p]: no run of [p], whatever the collaborators answer, makes a
    call that satisfies [P]. *)
Inductive quiet {A : Type} (P : Call -> bool) : Prog A -> Prop :=
| quiet_ret : forall a, quiet P (Ret a)
| quiet_raise : forall e, quiet P (Raise e)
| quiet_do : forall c k,
    P c = false -> (forall r, quiet P (k r)) -> quiet P (Do c k).

(** Kinds of calls on the container manager. *)
Definition is_refresh (c : Call) : bool :=
  match c with CmRefresh => true | _ => false end.

Definition is_highlight (c : Call) : bool :=
  match c with CmHighlight _ => true | _ => false end.

Definition is_open (c : Call) : bool :=
  match c with CmOpen => true | _ => false end.

Definition is_rebase (c : Call) : bool :=
  match c with CmSetBase _ | CmTopTreeRebase _ => true | _ => false end.

Definition is_selection_read (c : Call) : bool :=
  match c with CmSelections => true | _ => false end.

(** [comes_after seen P Q t]: in the sequence of calls [t], every call
    that satisfies [Q] has a call that satisfies [P] somewhere before it
    ([seen] tells whether such a call was made before [t] starts). *)
Fixpoint comes_after (seen : bool) (P Q : Call -> bool) (t : list Call) : bool :=
  match t with
  | [] => true
  | c :: rest => (negb (Q c) || seen) && comes_after (seen || P c) P Q rest
  end.

(** [guarded P Q seen p]: whatever the collaborators answer, [p] makes a
    call that satisfies [Q] only after a call that satisfies [P]. *)
Inductive guarded {A : Type} (P Q : Call -> bool) : bool -> Prog A -> Prop :=
| guarded_ret : forall seen a, guarded P Q seen (Ret a)
| guarded_raise : forall seen e, guarded P Q seen (Raise e)
| guarded_do : forall seen c k,
    (Q c = true -> seen = true) ->
    (forall r, guarded P Q (seen || P c) (k r)) ->
    guarded P Q seen (Do c k).

(** [budget P n p]: whatever the collaborators answer, [p] makes at most
    [n] calls that satisfy [P]. *)
Inductive budget {A : Type} (P : Call -> bool) : nat -> Prog A -> Prop :=
| budget_ret : forall n a, budget P n (Ret a)
| budget_raise : forall n e, budget P n (Raise e)
| budget_skip : forall n c k,
    P c = false -> (forall r, budget P n (k r)) -> budget P n (Do c k)
| budget_spend : forall n c k,
    P c = true -> (forall r, budget P n (k r)) -> budget P (S n) (Do c k).

(* ------------------------------------------------------------------------ *)
(** ** A small evacuation centre, for examples *)

Module Sample.
Import Model.

Definition store : Store :=
  [ mkItem "evac" "Evacuation" [("Display Name", "Evacuation")] None;
    mkItem "station" "Station" [("Display Name", "Station A")] (Some "evac");
    mkItem "alice" "Person" [("Display Name", "Alice")] (Some "station");
    mkItem "bob" "Person" [("Display Name", "Bob")] None ].

Definition handler := collab no_cycles.

(** Before [prepare]. *)
Definition fresh : World := mkWorld store None None.

(** After [prepare]: both trees show the evacuation and what it contains. *)
Definition ready : World :=
  Eval vm_compute in final (outcome handler EMS.prepare fresh).

(** After [show("station")]: the station is selected in the upper tree. *)
Definition at_station : World :=
  Eval vm_compute in final (outcome handler (EMS.show [AStr "station"]) ready).

(** The container manager of a state in which [prepare] has run. *)
Definition view_of (w : World) : View :=
  match w_cm w with
  | Some v => v
  | None => mkView (mkTree [] [] [] [] []) (mkTree [] [] [] [] [])
  end.

(** The trees re-rooted at the station, which is then a root-level node
    whose container lies above the base. *)
Definition below_station : World :=
  Eval vm_compute in
    mkWorld store
            (Some (set_base store [("_id", "station"); ("Display Name", "Station A")]
                     (view_of ready)))
            (w_de ready).

(** The store once "alice" has been deleted from it, the view not yet
    refreshed. *)
Definition alice_deleted : World :=
  mkWorld (filter (fun it => negb (String.eqb (it_id it) "alice")) (w_store at_station))
          (w_cm at_station) (w_de at_station).

(** The store once "evac" has been deleted, while it is still the base. *)
Definition evac_deleted : World :=
  mkWorld [ mkItem "station" "Station" [("Display Name", "Station A")] None;
            mkItem "alice" "Person" [("Display Name", "Alice")] (Some "station") ]
          (w_cm ready) (w_de ready).

Definition alice_record : Doc := [("_id", "alice"); ("Display Name", "Alice")].

End Sample.

(* ------------------------------------------------------------------------ *)
(** ** Facts about programs, for any collaborators *)

Section ProgramFacts.

Variable W : Type.
Variable handle : forall c : Call, W -> Outcome (Reply c) W.

Lemma quiet_bind :
  forall (A B : Type) (P : Call -> bool) (m : Prog A) (f : A -> Prog B),
    quiet P m -> (forall a, quiet P (f a)) -> quiet P (bind m f).
Proof.
  intros A B P m f Hm Hf.
  induction Hm as [a | e | c k Hc Hk IH]; cbn [bind].
  - apply Hf.
  - constructor.
  - constructor; [exact Hc | exact IH].
Qed.

Lemma quiet_call :
  forall (P : Call -> bool) (c : Call), P c = false -> quiet P (call c).
Proof.
  intros P c Hc. unfold call. constructor; [exact Hc | intro r; constructor].
Qed.

Lemma quiet_trace :
  forall (A : Type) (P : Call -> bool) (p : Prog A),
    quiet P p -> forall w, existsb P (trace handle p w) = false.
Proof.
  intros A P p Hq.
  induction Hq as [a | e | c k Hc Hk IH]; intro w; unfold trace; cbn [run].
  - reflexivity.
  - reflexivity.
  - destruct (handle c w) as [r w' | e w'].
    + specialize (IH r w'). unfold trace in IH.
      destruct (run handle (k r) w') as [t o]. cbn in *.
      rewrite Hc. exact IH.
    + cbn. rewrite Hc. reflexivity.
Qed.

Lemma last_satisfies :
  forall (P : Call -> bool) (d : Call) (t : list Call),
    P d = false -> P (last t d) = true -> existsb P t = true.
Proof.
  intros P d t Hd. induction t as [| c t IH]; intro Hl.
  - cbn in Hl. congruence.
  - destruct t as [| c' t'].
    + cbn in *. rewrite Hl. reflexivity.
    + change (P c || existsb P (c' :: t') = true).
      rewrite IH; [apply orb_true_r | exact Hl].
Qed.

(** How a [save] with an item id ends when it does not return: at the read
    of the selection, at its unpacking, at the store mutation, or at one of
    the three view commands that follow it. *)
Lemma save_raises :
  forall (x : Arg) (rest : list Arg) (w : W) (tr : list Call) (e : Exn) (w' : W),
    is_not_none x = true ->
    run handle (EMS.save (x :: rest)) w = (tr, Raised e w') ->
    (tr = [CmSelections] /\ handle CmSelections w = Raised e w') \/
    (tr = [CmSelections] /\ e = ValueError /\ handle CmSelections w = Returned [] w') \/
    (exists c sel w1,
        tr = [CmSelections; DbContainerAdd c x] /\
        handle CmSelections w = Returned (c :: sel) w1 /\
        handle (DbContainerAdd c x) w1 = Raised e w') \/
    (exists c t, tr = CmSelections :: DbContainerAdd c x :: CmRefresh :: t /\
                 (t = [] \/ t = [CmHighlight (AStr c)] \/
                  t = [CmHighlight (AStr c); CmOpen])).
Proof.
  intros x rest w tr e w' Hx Hrun.
  unfold EMS.save, call in Hrun. cbn [unpack_first bind] in Hrun.
  rewrite Hx in Hrun. cbn [bind run] in Hrun.
  destruct (handle CmSelections w) as [sel w1 | e1 w1] eqn:Hsel.
  - destruct sel as [| c sel]; cbn [unpack_first bind run] in Hrun.
    + injection Hrun as <- <- <-. right. left. auto.
    + destruct (handle (DbContainerAdd c x) w1) as [[] w2 | e2 w2] eqn:Hadd.
      * right. right. right. exists c.
        cbn [bind run] in Hrun.
        destruct (handle CmRefresh w2) as [[] w3 | e3 w3].
        -- cbn [bind run] in Hrun.
           destruct (handle (CmHighlight (AStr c)) w3) as [[] w4 | e4 w4].
           ++ cbn [bind run] in Hrun.
              destruct (handle CmOpen w4) as [[] w5 | e5 w5].
              ** discriminate Hrun.
              ** injection Hrun as <- _ _.
                 exists [CmHighlight (AStr c); CmOpen]. auto.
           ++ injection Hrun as <- _ _. exists [CmHighlight (AStr c)]. auto.
        -- injection Hrun as <- _ _. exists []. auto.
      * injection Hrun as <- <- <-. right. right. left.
        exists c, sel, w1. auto.
  - injection Hrun as <- <- <-. left. auto.
Qed.

End ProgramFacts.

Ltac quiet_steps :=
  repeat (cbn;
          first [ apply quiet_ret
                | apply quiet_raise
                | apply quiet_do; [reflexivity | intro] ]).

Ltac quiet_cases :=
  quiet_steps;
  repeat (unfold unpack_first, unpack_first_two, unpack_single,
                 py_len, py_iter, py_getitem;
          cbn;
          match goal with
          | |- context [match ?x with _ => _ end] => destruct x
          end;
          quiet_steps).

(** Only [save] ever asks the store to change. *)
Lemma only_save_mutates :
  forall r : Request,
    (forall args, r <> SaveRequested args) -> quiet is_store_mutation (serve r).
Proof.
  intros r Hr. destruct r as [args | target | args | args | args |]; cbn [serve].
  - unfold EMS.item_select. quiet_cases.
  - unfold EMS.newchild. quiet_cases.
  - unfold EMS.delete. quiet_cases.
  - exfalso. exact (Hr args eq_refl).
  - unfold EMS.show. quiet_cases.
  - unfold EMS.refresh. quiet_cases.
Qed.

(* ------------------------------------------------------------------------ *)
(** ** Facts about the store and the trees *)

Section StoreFacts.
Import Model.

Lemma find_item_id :
  forall (s : Store) (i : Id) (it : Item), find_item s i = Some it -> it_id it = i.
Proof.
  induction s as [| a s IH]; intros i it H; cbn in H; [discriminate |].
  destruct (String.eqb (it_id a) i) eqn:E.
  - injection H as <-. apply String.eqb_eq. exact E.
  - eapply IH. exact H.
Qed.

Lemma find_item_In :
  forall (s : Store) (i : Id) (it : Item), find_item s i = Some it -> In it s.
Proof.
  induction s as [| a s IH]; intros i it H; cbn in H; [discriminate |].
  destruct (String.eqb (it_id a) i).
  - injection H as <-. left. reflexivity.
  - right. eapply IH. exact H.
Qed.

Lemma In_find_item :
  forall (s : Store) (it : Item),
    In it s -> exists it', find_item s (it_id it) = Some it'.
Proof.
  induction s as [| a s IH]; intros it H; [destruct H |].
  cbn. destruct (String.eqb (it_id a) (it_id it)) eqn:E.
  - exists a. reflexivity.
  - destruct H as [-> | H].
    + rewrite String.eqb_refl in E. discriminate.
    + apply IH. exact H.
Qed.

Lemma mem_In : forall (i : Id) (l : list Id), mem i l = true <-> In i l.
Proof.
  intros i l. unfold mem. rewrite existsb_exists. split.
  - intros [y [Hy E]]. apply String.eqb_eq in E. subst. exact Hy.
  - intro H. exists i. split; [exact H | apply String.eqb_refl].
Qed.

Lemma under_self : forall (s : Store) (b : Id), under s b b = true.
Proof.
  intros s b. unfold under. destruct (List.length s); cbn; rewrite String.eqb_refl;
    reflexivity.
Qed.

Lemma under_child :
  forall (s : Store) (x p : Id), get_parent s x = Some p -> under s p x = true.
Proof.
  intros s x p H. unfold under.
  destruct s as [| a s]; [discriminate H |].
  cbn [List.length climbs]. rewrite H.
  destruct (String.eqb x p); [reflexivity |].
  destruct (List.length s); cbn; rewrite String.eqb_refl; reflexivity.
Qed.

(** The parent in view of a node of a freshly built tree. *)
Lemma view_parent_filter :
  forall (s : Store) (b : Id) (l : list Item) (i : Id),
    view_parent (map (node_of b) (filter (fun it => under s b (it_id it)) l)) i =
    if under s b i
    then match find_item l i with
         | Some it => Some (n_parent (node_of b it))
         | None => None
         end
    else None.
Proof.
  intros s b l i. induction l as [| a l IH]; cbn.
  - destruct (under s b i); reflexivity.
  - destruct (String.eqb (it_id a) i) eqn:E.
    + apply String.eqb_eq in E. rewrite E.
      destruct (under s b i) eqn:U; cbn.
      * rewrite E, String.eqb_refl. reflexivity.
      * rewrite IH. rewrite ?U. reflexivity.
    + destruct (under s b (it_id a)); cbn.
      * rewrite E. exact IH.
      * exact IH.
Qed.

Lemma view_parent_build :
  forall (s : Store) (b i : Id),
    view_parent (build s b) i =
    if under s b i
    then match find_item s i with
         | Some it => Some (n_parent (node_of b it))
         | None => None
         end
    else None.
Proof. intros. apply view_parent_filter. Qed.

Lemma mem_nodes :
  forall (nodes : list Node) (i : Id),
    mem i (map n_id nodes) =
    match view_parent nodes i with Some _ => true | None => false end.
Proof.
  intros nodes i. induction nodes as [| n nodes IH]; cbn; [reflexivity |].
  rewrite String.eqb_sym. destruct (String.eqb (n_id n) i); [reflexivity | exact IH].
Qed.

(** The base of a freshly built tree is one of its nodes, at root level. *)
Lemma build_root :
  forall (s : Store) (b : Id) (it : Item),
    find_item s b = Some it -> view_parent (build s b) b = Some "".
Proof.
  intros s b it H. rewrite view_parent_build, under_self, H.
  unfold node_of. cbn. rewrite (find_item_id _ _ H), String.eqb_refl. reflexivity.
Qed.

(** An item whose container is the base is a node right below it. *)
Lemma build_child :
  forall (s : Store) (p x : Id) (it : Item),
    find_item s x = Some it -> it_parent it = Some p -> x <> p ->
    view_parent (build s p) x = Some p.
Proof.
  intros s p x it H Hp Hne. rewrite view_parent_build.
  rewrite under_child by (unfold get_parent; rewrite H; exact Hp).
  rewrite H. unfold node_of. cbn. rewrite (find_item_id _ _ H), Hp.
  destruct (String.eqb x p) eqn:E; [| reflexivity].
  apply String.eqb_eq in E. contradiction.
Qed.

(** Every node of a built tree is an item of the store. *)
Lemma build_nodes_stored :
  forall (s : Store) (b i : Id),
    In i (map n_id (build s b)) -> exists it, find_item s i = Some it.
Proof.
  intros s b i H. apply mem_In in H. rewrite mem_nodes, view_parent_build in H.
  destruct (under s b i); [| discriminate].
  destruct (find_item s i) as [it |]; [eauto | discriminate].
Qed.

Lemma rebuild_nodes_stored :
  forall (s : Store) (t : Tree) (i : Id),
    find_item s i = None -> ~ In i (tree_ids (rebuild s t)).
Proof.
  intros s t i Hnone Hin. unfold tree_ids, rebuild in Hin. cbn in Hin.
  apply build_nodes_stored in Hin. destruct Hin as [it Hit]. congruence.
Qed.

Lemma filter_twice :
  forall (A : Type) (f : A -> bool) (l : list A), filter f (filter f l) = filter f l.
Proof.
  intros A f l. induction l as [| a l IH]; cbn; [reflexivity |].
  destruct (f a) eqn:E; cbn; [rewrite E, IH; reflexivity | exact IH].
Qed.

(** Rebuilding a tree that was just rebuilt from the same store changes
    nothing. *)
Lemma rebuild_twice :
  forall (s : Store) (t : Tree), rebuild s (rebuild s t) = rebuild s t.
Proof.
  intros s t. unfold rebuild. cbn.
  destruct (live s (t_base t)) eqn:L; cbn.
  - rewrite L. cbn. rewrite !filter_twice. reflexivity.
  - destruct (live s (t_home t)); cbn; rewrite ?filter_twice; reflexivity.
Qed.

Lemma record_base_id :
  forall it : Item, doc_id (record it EMS.base_fields) = Some (it_id it).
Proof. intro it. reflexivity. Qed.

Lemma record_live :
  forall (s : Store) (it it' : Item),
    find_item s (it_id it) = Some it' -> live s (record it EMS.base_fields) = true.
Proof.
  intros s it it' H. unfold live. rewrite record_base_id, H. reflexivity.
Qed.

(** Every record that [items_query] returns is the record of a stored
    item. *)
Lemma items_query_stored :
  forall (s : Store) (cat : string) (fields : list string) (d : Doc),
    In d (items_query s cat fields) ->
    exists it, In it s /\ it_cat it = cat /\ d = record it fields.
Proof.
  intros s cat fields d H. unfold items_query in H.
  apply in_map_iff in H. destruct H as [it [Hd Hit]].
  apply filter_In in Hit. destruct Hit as [Hin Hcat].
  exists it. repeat split; [exact Hin | apply String.eqb_eq; exact Hcat | congruence].
Qed.

Lemma find_item_set_parent :
  forall (s : Store) (c x i : Id),
    find_item (set_parent c x s) i =
    match find_item s i with
    | Some it =>
        Some (if String.eqb (it_id it) x
              then mkItem (it_id it) (it_cat it) (it_fields it) (Some c)
              else it)
    | None => None
    end.
Proof.
  intros s c x i. induction s as [| a s IH]; cbn; [reflexivity |].
  destruct (String.eqb (it_id a) x) eqn:E; cbn;
    destruct (String.eqb (it_id a) i); try rewrite E; auto.
Qed.

(** A successful [container_add] leaves the edge in the store. *)
Lemma container_add_edge :
  forall (rejects : Store -> Id -> Id -> option string)
         (s s' : Store) (c : Id) (item : Arg),
    container_add rejects s c item = inr s' ->
    exists x, item = AStr x /\ s' = set_parent c x s /\ get_parent s' x = Some c.
Proof.
  intros rejects s s' c item H. unfold container_add in H.
  destruct item as [| x | l | d]; try discriminate.
  destruct (find_item s c); [| discriminate].
  destruct (find_item s x) as [it |] eqn:Hx; [| discriminate].
  destruct (rejects s c x); [discriminate |].
  injection H as <-. exists x. repeat split.
  unfold get_parent. rewrite find_item_set_parent, Hx.
  rewrite (find_item_id _ _ Hx), String.eqb_refl. reflexivity.
Qed.

Lemma container_add_known :
  forall (rejects : Store -> Id -> Id -> option string)
         (s s' : Store) (c : Id) (item : Arg),
    container_add rejects s c item = inr s' ->
    exists itc, find_item s c = Some itc.
Proof.
  intros rejects s s' c item H. unfold container_add in H.
  destruct item as [| x | l | d]; try discriminate.
  destruct (find_item s c) as [itc |]; [eauto | discriminate].
Qed.

Lemma get_parent_set_parent_other :
  forall (s : Store) (c x i : Id),
    i <> x -> get_parent (set_parent c x s) i = get_parent s i.
Proof.
  intros s c x i Hne. unfold get_parent. rewrite find_item_set_parent.
  destruct (find_item s i) as [it |] eqn:Hi; [| reflexivity].
  rewrite (find_item_id _ _ Hi).
  destruct (String.eqb i x) eqn:E; [| reflexivity].
  apply String.eqb_eq in E. contradiction.
Qed.

(** Adding the edge to [x] changes no chain of containers that does not
    pass through [x]. *)
Lemma climbs_set_parent :
  forall (s : Store) (c x b : Id) (fuel : nat) (i : Id),
    climbs s fuel x i = false ->
    climbs (set_parent c x s) fuel b i = climbs s fuel b i.
Proof.
  intros s c x b fuel. induction fuel as [| f IH]; intros i H.
  - reflexivity.
  - cbn [climbs] in *.
    destruct (String.eqb i x) eqn:E; [discriminate |].
    apply String.eqb_neq in E. rewrite get_parent_set_parent_other by exact E.
    destruct (String.eqb i b); [reflexivity |].
    destruct (get_parent s i) as [p |]; [apply IH; exact H | reflexivity].
Qed.

Lemma under_set_parent :
  forall (s : Store) (c x b i : Id),
    under s x i = false -> under (set_parent c x s) b i = under s b i.
Proof.
  intros s c x b i H. unfold under, set_parent in *. rewrite length_map.
  apply climbs_set_parent. exact H.
Qed.

Lemma live_set_parent :
  forall (s : Store) (c x : Id) (d : Doc), live (set_parent c x s) d = live s d.
Proof.
  intros s c x d. unfold live. destruct (doc_id d) as [i |]; [| reflexivity].
  rewrite find_item_set_parent. destruct (find_item s i); reflexivity.
Qed.

(** Highlighting and opening keep the nodes of both trees. *)
Lemma highlight_open_nodes :
  forall (a : Arg) (v : View),
    t_nodes (v_top (open (highlight a v))) = t_nodes (v_top v) /\
    t_nodes (v_bot (open (highlight a v))) = t_nodes (v_bot v) /\
    t_base (v_top (open (highlight a v))) = t_base (v_top v) /\
    t_base (v_bot (open (highlight a v))) = t_base (v_bot v).
Proof.
  intros a v. destruct a as [| i | l | d]; cbn; try (repeat split; reflexivity).
  unfold highlight_tree. destruct (mem i (tree_ids (v_top v))); cbn;
    repeat split; reflexivity.
Qed.

(** Highlighting a displayed node selects it, and opening then expands
    it. *)
Lemma highlight_open_selected :
  forall (i : Id) (v : View),
    mem i (tree_ids (v_top v)) = true ->
    t_sel (v_top (highlight (AStr i) v)) = [i] /\
    t_sel (v_top (open (highlight (AStr i) v))) = [i] /\
    In i (t_open (v_top (open (highlight (AStr i) v)))).
Proof.
  intros i v H. cbn. unfold highlight_tree. rewrite H. cbn.
  repeat split. left. reflexivity.
Qed.

End StoreFacts.

(* ------------------------------------------------------------------------ *)
(** ** The callbacks on the modelled collaborators *)

Section OnTheModel.
Import Model.

Variable rejects : Store -> Id -> Id -> option string.

(** What [save] does with an item id, step by step. *)
Lemma save_run :
  forall (x : Arg) (rest : list Arg) (w : World),
    is_not_none x = true ->
    run (collab rejects) (EMS.save (x :: rest)) w =
    match w_cm w with
    | None => ([CmSelections], Raised (AttributeError "cm") w)
    | Some v =>
        match t_sel (v_top v) with
        | [] => ([CmSelections], Raised ValueError w)
        | c :: _ =>
            match container_add rejects (w_store w) c x with
            | inl reason =>
                ([CmSelections; DbContainerAdd c x], Raised (StoreFailure reason) w)
            | inr s' =>
                ([CmSelections; DbContainerAdd c x; CmRefresh;
                  CmHighlight (AStr c); CmOpen],
                 Returned tt
                   (mkWorld s'
                      (Some (open (highlight (AStr c) (refresh s' v))))
                      (w_de w)))
            end
        end
    end.
Proof.
  intros x rest [s cm de] Hx. unfold EMS.save. cbn [unpack_first bind].
  rewrite Hx. cbn. unfold with_cm. cbn.
  destruct cm as [v |]; [| reflexivity].
  destruct (t_sel (v_top v)) as [| c sel]; [reflexivity |].
  cbn. destruct (container_add rejects s c x) as [reason | s']; reflexivity.
Qed.

(** What [newchild] does, step by step. *)
Lemma newchild_run :
  forall (target : string) (w : World) (v : View),
    w_cm w = Some v ->
    run (collab rejects) (EMS.newchild target) w =
    match view_parent (t_nodes (v_top v)) target with
    | None => ([CmTopTreeParent target], Raised TclError w)
    | Some p =>
        if String.eqb p ""
        then
          let v1 := tree_rebase (w_store w) target v in
          match view_parent (t_nodes (v_top v1)) target with
          | None =>
              ([CmTopTreeParent target; CmTopTreeRebase target;
                CmTopTreeParent target],
               Raised TclError (set_cm w v1))
          | Some q =>
              ([CmTopTreeParent target; CmTopTreeRebase target;
                CmTopTreeParent target; CmHighlight (AStr q)],
               Returned tt (set_cm w (highlight (AStr q) v1)))
          end
        else
          ([CmTopTreeParent target; CmHighlight (AStr p)],
           Returned tt (set_cm w (highlight (AStr p) v)))
    end.
Proof.
  intros target [s cm de] v Hcm. cbn in Hcm. subst cm.
  unfold EMS.newchild, call. cbn [bind run collab with_cm w_cm].
  destruct (view_parent (t_nodes (v_top v)) target) as [p |]; [| reflexivity].
  cbn [bind run]. destruct (String.eqb p ""); [| reflexivity].
  cbv zeta. cbn [bind run collab with_cm w_cm w_store set_cm].
  destruct (view_parent (t_nodes (v_top (tree_rebase s target v))) target);
    reflexivity.
Qed.

(** What [delete] does with a non-empty chain of parents, step by step. *)
Lemma delete_run :
  forall (id : Arg) (p : string) (chain : list string) (extra : list Arg)
         (w : World) (v : View) (b : Id),
    w_cm w = Some v ->
    doc_id (t_base (v_top v)) = Some b ->
    run (collab rejects) (EMS.delete (id :: AList (p :: chain) :: extra)) w =
    if py_eq_str id b
    then
      match item_get (w_store w) p EMS.base_fields with
      | None => ([CmBase; DbItemGet p EMS.base_fields], Raised (NotFound p) w)
      | Some d =>
          ([CmBase; DbItemGet p EMS.base_fields; CmSetBase d; CmRefresh;
            CmHighlight (AStr p); CmOpen],
           Returned tt
             (set_cm w (open (highlight (AStr p)
                                (refresh (w_store w) (set_base (w_store w) d v))))))
      end
    else
      ([CmBase; CmRefresh; CmHighlight (AStr p); CmOpen],
       Returned tt
         (set_cm w (open (highlight (AStr p) (refresh (w_store w) v))))).
Proof.
  intros id p chain extra [s cm de] v b Hcm Hb. cbn in Hcm. subst cm.
  unfold doc_id in Hb.
  unfold EMS.delete, call, py_getitem.
  cbn [unpack_first_two py_len py_iter unpack_first List.length Nat.ltb Nat.leb
       bind run collab with_cm w_cm].
  rewrite Hb. cbn [bind run].
  destruct (py_eq_str id b).
  - cbn [bind run collab w_store]. destruct (item_get s p EMS.base_fields); reflexivity.
  - reflexivity.
Qed.

End OnTheModel.

(* ------------------------------------------------------------------------ *)
(** ** Properties of the callbacks *)

Import Model.

(** C9: a show request with a null item id is a complete no-op.  Whatever
    the collaborators are, [show(None, ...)] makes no call at all (no
    refresh, no highlight) and returns in the state it started in, so the
    displayed trees, the base and the selection are what they were. *)
Theorem show_none_is_noop :
  forall (W : Type) (handle : forall c : Call, W -> Outcome (Reply c) W)
         (rest : list Arg) (w : W),
    EMS.show (ANone :: rest) = Ret tt /\
    run handle (EMS.show (ANone :: rest)) w = ([], Returned tt w).
Proof. intros W handle rest w. split; reflexivity. Qed.

(** C10: with a non-empty parent chain, [delete] depends only on the item
    id and the first parent.  Two invocations that agree on both, run from
    the same state against the same collaborators, make the same calls and
    end the same way, whatever the rest of the chain and any further
    arguments are. *)
Theorem delete_uses_first_parent_only :
  forall (W : Type) (handle : forall c : Call, W -> Outcome (Reply c) W)
         (id : Arg) (p : string) (chain1 chain2 : list string)
         (extra1 extra2 : list Arg) (w : W),
    EMS.delete (id :: AList (p :: chain1) :: extra1) =
    EMS.delete (id :: AList (p :: chain2) :: extra2) /\
    run handle (EMS.delete (id :: AList (p :: chain1) :: extra1)) w =
    run handle (EMS.delete (id :: AList (p :: chain2) :: extra2)) w.
Proof. intros. split; reflexivity. Qed.

(** C8: [save] with a non-null item id while nothing is selected fails when
    it unpacks the selection.  Whatever the collaborators are, if the read
    of the selection answers with the empty sequence, that read is the only
    call made: no edge is added, no refresh happens, the callback ends with
    a [ValueError], and the state (store, trees, base, selection) is the one
    it started in. *)
Theorem save_without_selection_fails :
  forall (W : Type) (handle : forall c : Call, W -> Outcome (Reply c) W)
         (id : Arg) (rest : list Arg) (w : W),
    is_not_none id = true ->
    handle CmSelections w = Returned [] w ->
    run handle (EMS.save (id :: rest)) w = ([CmSelections], Raised ValueError w).
Proof.
  intros W handle id rest w Hid Hsel.
  unfold EMS.save, call. cbn [unpack_first bind]. rewrite Hid.
  cbn [bind run]. rewrite Hsel. reflexivity.
Qed.

Lemma save_without_selection_fails_witness :
  run (collab no_cycles) (EMS.save [AStr "bob"]) Sample.ready
  = ([CmSelections], Raised ValueError Sample.ready).
Proof.
  apply (@save_without_selection_fails World (collab no_cycles)
           (AStr "bob") [] Sample.ready);
    reflexivity.
Defined.

(** The modelled collaborators keep to the two contracts that failure
    containment rests on. *)
Lemma collab_selections_reads :
  forall (rejects : Store -> Id -> Id -> option string)
         (w : World) (sel : list string) (w1 : World),
    collab rejects CmSelections w = Returned sel w1 -> w1 = w.
Proof.
  intros rejects w sel w1 H. cbn in H. unfold with_cm in H.
  destruct (w_cm w); [injection H as _ <-; reflexivity | discriminate H].
Qed.

Lemma collab_failed_add_keeps :
  forall (rejects : Store -> Id -> Id -> option string)
         (c : string) (x : Arg) (w : World) (e : Exn) (w1 : World),
    collab rejects (DbContainerAdd c x) w = Raised e w1 -> w1 = w.
Proof.
  intros rejects c x w e w1 H. cbn in H.
  destruct (container_add rejects (w_store w) c x);
    [injection H as _ <-; reflexivity | discriminate H].
Qed.

(** C1: a transition whose store mutation fails stops there.  Take any
    collaborators for which reading the selection changes nothing and a
    store mutation that fails changes nothing.  For every request, if the
    callback ends with an exception and the last call it made was a store
    mutation (so it is that call which failed), then it made no refresh,
    highlight, open or rebase call, and the whole state (store, both trees,
    base, selection, edit pane) is what it was before the request. *)
Theorem failed_mutation_aborts_transition :
  forall (W : Type) (handle : forall c : Call, W -> Outcome (Reply c) W),
    (forall (w : W) (sel : list string) (w1 : W),
        handle CmSelections w = Returned sel w1 -> w1 = w) ->
    (forall (c : string) (x : Arg) (w : W) (e : Exn) (w1 : W),
        handle (DbContainerAdd c x) w = Raised e w1 -> w1 = w) ->
    forall (r : Request) (w : W) (tr : list Call) (e : Exn) (w' : W),
      run handle (serve r) w = (tr, Raised e w') ->
      is_store_mutation (last tr CmOpen) = true ->
      existsb is_view_command tr = false /\ w' = w.
Proof.
  intros W handle Hread Hfail r w tr e w' Hrun Hlast.
  assert (Hsome : existsb is_store_mutation tr = true)
    by (eapply last_satisfies; [| exact Hlast]; reflexivity).
  assert (Hq : forall r0, (forall args, r0 <> SaveRequested args) ->
                          existsb is_store_mutation (trace handle (serve r0) w) = false)
    by (intros r0 Hr0; apply quiet_trace, only_save_mutates; exact Hr0).
  destruct r as [args | target | args | args | args |];
    try (match type of Hrun with
         | run _ (serve ?r0) _ = _ =>
             assert (Hne : forall args', r0 <> SaveRequested args')
               by (intros; discriminate);
             specialize (Hq r0 Hne); unfold trace in Hq;
             rewrite Hrun in Hq; cbn [fst] in Hq; congruence
         end).
  cbn [serve] in Hrun.
  destruct args as [| x rest].
  - cbn in Hrun. injection Hrun as <- _ _. discriminate Hsome.
  - destruct (is_not_none x) eqn:Hx.
    + destruct (save_raises handle x rest w Hx Hrun)
        as [[-> _] | [[-> _] | [[c [sel [w1 [-> [Hsel Hadd]]]]] | [c [t [-> Ht]]]]]].
      * discriminate Hsome.
      * discriminate Hsome.
      * apply Hread in Hsel. subst w1. apply Hfail in Hadd. subst w'.
        split; reflexivity.
      * destruct Ht as [-> | [-> | ->]]; discriminate Hlast.
    + destruct x; try discriminate Hx.
      unfold EMS.save, call in Hrun. cbn [unpack_first bind run is_not_none] in Hrun.
      destruct (handle CmRefresh w) as [[] w1 | e1 w1].
      * discriminate Hrun.
      * injection Hrun as <- _ _. discriminate Hsome.
Qed.

Lemma failed_mutation_aborts_transition_witness :
  run (collab no_cycles) (serve (SaveRequested [AStr "evac"])) Sample.at_station =
    ([CmSelections; DbContainerAdd "station" (AStr "evac")],
     Raised (StoreFailure "would create a cycle") Sample.at_station) /\
  existsb is_view_command [CmSelections; DbContainerAdd "station" (AStr "evac")] = false /\
  Sample.at_station = Sample.at_station.
Proof.
  split; [reflexivity |].
  apply (@failed_mutation_aborts_transition World (collab no_cycles)
           (collab_selections_reads no_cycles) (collab_failed_add_keeps no_cycles)
           (SaveRequested [AStr "evac"]) Sample.at_station
           [CmSelections; DbContainerAdd "station" (AStr "evac")]
           (StoreFailure "would create a cycle") Sample.at_station);
    reflexivity.
Defined.

(** C5, as amended: when the selection callback is invoked with one
    argument, the controller pushes exactly that argument to the edit pane,
    which then displays it; this is the only call made, so the controller
    itself reads nothing from the store. *)
Theorem item_select_shows_given_record :
  forall (rejects : Store -> Id -> Id -> option string)
         (w : World) (pane : Pane) (doc : Arg),
    w_de w = Some pane ->
    run (collab rejects) (EMS.item_select [doc]) w =
    ([DeShow doc],
     Returned tt (mkWorld (w_store w) (w_cm w) (Some (mkPane (Some doc))))).
Proof.
  intros rejects [s cm de] pane doc Hde. cbn in Hde. subst de. reflexivity.
Qed.

Lemma item_select_shows_given_record_witness :
  run (collab no_cycles) (EMS.item_select [ADoc Sample.alice_record]) Sample.ready =
  ([DeShow (ADoc Sample.alice_record)],
   Returned tt (mkWorld (w_store Sample.ready) (w_cm Sample.ready)
                        (Some (mkPane (Some (ADoc Sample.alice_record)))))).
Proof.
  apply (@item_select_shows_given_record no_cycles Sample.ready (mkPane None)
           (ADoc Sample.alice_record)).
  reflexivity.
Defined.

(** C5, as stated, fails: a selection of "alice", delivered with her record,
    is served without any call to the store. *)
Lemma item_select_reads_no_store :
  ~ (exists c : Call,
        In c (trace (collab no_cycles)
                (EMS.item_select [ADoc Sample.alice_record]) Sample.ready)
        /\ is_store_call c = true).
Proof.
  intros [c [Hin Hc]]. cbn in Hin.
  destruct Hin as [<- | []]. discriminate Hc.
Qed.

(** C6: with the store and the base fixed, a second [refresh] changes
    nothing: it ends in exactly the state the first one produced, with the
    same nodes, labels, open nodes and selection in both trees. *)
Theorem refresh_twice_is_refresh_once :
  forall (rejects : Store -> Id -> Id -> option string) (w : World) (v : View),
    w_cm w = Some v ->
    run (collab rejects) EMS.refresh w =
      ([CmRefresh], Returned tt (set_cm w (refresh (w_store w) v))) /\
    run (collab rejects) EMS.refresh (set_cm w (refresh (w_store w) v)) =
      ([CmRefresh], Returned tt (set_cm w (refresh (w_store w) v))).
Proof.
  intros rejects [s cm de] v Hcm. cbn in Hcm. subst cm. split.
  - reflexivity.
  - cbn. unfold with_cm, set_cm, refresh. cbn. rewrite !rebuild_twice. reflexivity.
Qed.

Lemma refresh_twice_is_refresh_once_witness :
  let w := Sample.alice_deleted in
  let w1 := set_cm w (refresh (w_store w) (Sample.view_of w)) in
  run (collab no_cycles) EMS.refresh w = ([CmRefresh], Returned tt w1) /\
  run (collab no_cycles) EMS.refresh w1 = ([CmRefresh], Returned tt w1).
Proof.
  apply (@refresh_twice_is_refresh_once no_cycles Sample.alice_deleted
           (Sample.view_of Sample.alice_deleted)).
  reflexivity.
Defined.

(** C7: at application start the base is resolved by one [items_query] for
    the category "Evacuation" (the only call to the store that [prepare]
    makes), the first record returned is taken, and the container manager
    is built with that record as the base of the upper and of the lower
    tree: both trees have it as their base and show it as a root-level
    node. *)
Theorem prepare_roots_both_trees_at_base :
  forall (rejects : Store -> Id -> Id -> option string)
         (w : World) (d : Doc) (rest : list Doc),
    items_query (w_store w) "Evacuation" EMS.base_fields = d :: rest ->
    exists v : View,
      run (collab rejects) EMS.prepare w =
        ([DbItemsQuery "Evacuation" EMS.base_fields;
          NewContainerManager d d;
          NewDataEntry; NewButton "Refresh"; NewStatusBar;
          RootRowconfigure 0 1000 None; RootRowconfigure 1 1 (Some 16);
          RootColumnconfigure 0 1 (Some 48); RootColumnconfigure 1 1000 None],
         Returned tt (mkWorld (w_store w) (Some v) (Some (mkPane None)))) /\
      filter is_store_call (trace (collab rejects) EMS.prepare w) =
        [DbItemsQuery "Evacuation" EMS.base_fields] /\
      t_base (v_top v) = d /\ t_base (v_bot v) = d /\
      view_parent (t_nodes (v_top v)) (root_id d) = Some "" /\
      view_parent (t_nodes (v_bot v)) (root_id d) = Some "".
Proof.
  intros rejects [s cm de] d rest Hq. cbn [w_store] in *.
  assert (Hd : In d (items_query s "Evacuation" EMS.base_fields))
    by (rewrite Hq; left; reflexivity).
  apply items_query_stored in Hd. destruct Hd as [it [Hin [_ Hd]]].
  destruct (In_find_item _ _ Hin) as [it' Hit'].
  assert (Hlive : live s d = true) by (subst d; eapply record_live; exact Hit').
  assert (Hroot : root_id d = it_id it) by (subst d; reflexivity).
  assert (Hrun : run (collab rejects) EMS.prepare (mkWorld s cm de) =
            ([DbItemsQuery "Evacuation" EMS.base_fields;
              NewContainerManager d d;
              NewDataEntry; NewButton "Refresh"; NewStatusBar;
              RootRowconfigure 0 1000 None; RootRowconfigure 1 1 (Some 16);
              RootColumnconfigure 0 1 (Some 48); RootColumnconfigure 1 1000 None],
             Returned tt (mkWorld s (Some (new_view s d d)) (Some (mkPane None))))).
  { unfold EMS.prepare, call. cbn [bind run collab w_store]. rewrite Hq. reflexivity. }
  exists (new_view s d d). split; [exact Hrun |].
  split; [unfold trace; rewrite Hrun; reflexivity |].
  unfold new_view, rebuild. cbn. rewrite Hlive. cbn.
  repeat split; rewrite Hroot; eapply build_root; exact Hit'.
Qed.

Lemma prepare_roots_both_trees_at_base_witness :
  exists v : View,
    run (collab no_cycles) EMS.prepare Sample.fresh =
      ([DbItemsQuery "Evacuation" EMS.base_fields;
        NewContainerManager [("_id", "evac"); ("Display Name", "Evacuation")]
                            [("_id", "evac"); ("Display Name", "Evacuation")];
        NewDataEntry; NewButton "Refresh"; NewStatusBar;
        RootRowconfigure 0 1000 None; RootRowconfigure 1 1 (Some 16);
        RootColumnconfigure 0 1 (Some 48); RootColumnconfigure 1 1000 None],
       Returned tt (mkWorld (w_store Sample.fresh) (Some v) (Some (mkPane None)))) /\
    filter is_store_call (trace (collab no_cycles) EMS.prepare Sample.fresh) =
      [DbItemsQuery "Evacuation" EMS.base_fields] /\
    t_base (v_top v) = [("_id", "evac"); ("Display Name", "Evacuation")] /\
    t_base (v_bot v) = [("_id", "evac"); ("Display Name", "Evacuation")] /\
    view_parent (t_nodes (v_top v))
      (root_id [("_id", "evac"); ("Display Name", "Evacuation")]) = Some "" /\
    view_parent (t_nodes (v_bot v))
      (root_id [("_id", "evac"); ("Display Name", "Evacuation")]) = Some "".
Proof.
  apply (@prepare_roots_both_trees_at_base no_cycles Sample.fresh
           [("_id", "evac"); ("Display Name", "Evacuation")] []).
  reflexivity.
Defined.

(** C2: [save] of an item id [x] into the selected container [c].  The
    controller reads the selection, adds the edge from [c] to [x] through
    the store, then refreshes, then highlights [c], then opens it, in that
    order.  Afterwards the store has the edge, and [c] is the selected,
    open node of the upper tree.  The last part is for a view in step with
    the store ([c] is below the base, which is a stored item) and an edge
    that does not put [x] under itself, the cases in which the store's
    answers leave [c] in the refreshed tree. *)
Theorem save_adds_edge_then_refreshes_then_highlights :
  forall (rejects : Store -> Id -> Id -> option string)
         (w : World) (v : View) (c : Id) (sel : list Id)
         (x : Id) (rest : list Arg) (s' : Store),
    w_cm w = Some v ->
    t_sel (v_top v) = c :: sel ->
    container_add rejects (w_store w) c (AStr x) = inr s' ->
    live (w_store w) (t_base (v_top v)) = true ->
    under (w_store w) (root_id (t_base (v_top v))) c = true ->
    under (w_store w) x c = false ->
    exists v' : View,
      run (collab rejects) (EMS.save (AStr x :: rest)) w =
        ([CmSelections; DbContainerAdd c (AStr x); CmRefresh;
          CmHighlight (AStr c); CmOpen],
         Returned tt (mkWorld s' (Some v') (w_de w))) /\
      get_parent s' x = Some c /\
      t_base (v_top v') = t_base (v_top v) /\
      t_sel (v_top v') = [c] /\
      In c (t_open (v_top v')).
Proof.
  intros rejects w v c sel x rest s' Hcm Hsel Hadd Hlive Hunder Hacyclic.
  exists (open (highlight (AStr c) (refresh s' v))).
  split.
  { rewrite save_run by reflexivity. rewrite Hcm, Hsel, Hadd. reflexivity. }
  destruct (container_add_known _ _ _ _ Hadd) as [itc Hc].
  destruct (container_add_edge _ _ _ _ Hadd) as [x' [Hx [Hs' Hedge]]].
  injection Hx as <-.
  split; [exact Hedge |].
  assert (Hlive' : live s' (t_base (v_top v)) = true)
    by (rewrite Hs', live_set_parent; exact Hlive).
  assert (Hbase : t_base (v_top (refresh s' v)) = t_base (v_top v))
    by (cbn; rewrite Hlive'; reflexivity).
  split.
  { destruct (highlight_open_nodes (AStr c) (refresh s' v)) as [_ [_ [Ht _]]].
    rewrite Ht. exact Hbase. }
  assert (Hshown : mem c (tree_ids (v_top (refresh s' v))) = true).
  { unfold tree_ids, refresh, rebuild. cbn [v_top t_nodes]. rewrite Hlive'. cbn [negb].
    rewrite mem_nodes, view_parent_build.
    rewrite Hs', under_set_parent by exact Hacyclic. rewrite Hunder.
    rewrite find_item_set_parent, Hc. reflexivity. }
  destruct (highlight_open_selected c (refresh s' v) Hshown) as [_ [Hs Ho]].
  split; [exact Hs | exact Ho].
Qed.

Lemma save_adds_edge_then_refreshes_then_highlights_witness :
  exists v' : View,
    run (collab no_cycles) (EMS.save [AStr "bob"]) Sample.at_station =
      ([CmSelections; DbContainerAdd "station" (AStr "bob"); CmRefresh;
        CmHighlight (AStr "station"); CmOpen],
       Returned tt (mkWorld (set_parent "station" "bob" Sample.store) (Some v')
                            (w_de Sample.at_station))) /\
    get_parent (set_parent "station" "bob" Sample.store) "bob" = Some "station" /\
    t_base (v_top v') = t_base (v_top (Sample.view_of Sample.at_station)) /\
    t_sel (v_top v') = ["station"] /\
    In "station" (t_open (v_top v')).
Proof.
  apply (@save_adds_edge_then_refreshes_then_highlights no_cycles
           Sample.at_station (Sample.view_of Sample.at_station)
           "station" [] "bob" [] (set_parent "station" "bob" Sample.store));
    reflexivity.
Defined.

(** The rebase protocol at work: when the target's container [p] is a
    stored item, both trees are rebuilt with [p]'s record as base. *)
Lemma tree_rebase_to_parent :
  forall (s : Store) (v : View) (x p : Id) (itx itp : Item),
    find_item s x = Some itx ->
    it_parent itx = Some p ->
    find_item s p = Some itp ->
    tree_rebase s x v =
    mkView (mkTree (record itp EMS.base_fields) (t_home (v_top v)) (build s p) [] [])
           (mkTree (record itp EMS.base_fields) (t_home (v_bot v)) (build s p) [] []).
Proof.
  intros s v x p itx itp Hx Hp Hfp.
  assert (Hid : it_id itp = p) by (eapply find_item_id; exact Hfp).
  assert (Hlive : live s (record itp EMS.base_fields) = true)
    by (eapply record_live; rewrite Hid; exact Hfp).
  unfold tree_rebase, anchor, get_parent, base_record, item_get.
  rewrite Hx, Hp, Hfp. unfold set_base, rebuild. cbn [t_base t_home t_open t_sel].
  rewrite Hlive. cbn [negb filter]. unfold root_id. rewrite record_base_id, Hid.
  reflexivity.
Qed.

(** C3: a create-child request on node [x].  If [x] is shown at root level
    (its parent in view is the empty sentinel) and its container in the
    store is [p], the trees are rebased: [p]'s record becomes the base of
    both trees, [p] is the root-level node, the parent in view of [x]
    resolves to [p], and [p] is highlighted.  If [x] already has a parent
    [q] in view, [q] is highlighted directly, with no rebase and the base
    unchanged. *)
Theorem newchild_highlights_parent :
  forall (rejects : Store -> Id -> Id -> option string)
         (w : World) (v : View) (x : Id),
    w_cm w = Some v ->
    (forall (p : Id) (itx itp : Item),
        view_parent (t_nodes (v_top v)) x = Some "" ->
        find_item (w_store w) x = Some itx ->
        it_parent itx = Some p ->
        find_item (w_store w) p = Some itp ->
        x <> p ->
        exists v' : View,
          run (collab rejects) (EMS.newchild x) w =
            ([CmTopTreeParent x; CmTopTreeRebase x; CmTopTreeParent x;
              CmHighlight (AStr p)],
             Returned tt (set_cm w v')) /\
          doc_id (t_base (v_top v')) = Some p /\
          doc_id (t_base (v_bot v')) = Some p /\
          view_parent (t_nodes (v_top v')) p = Some "" /\
          view_parent (t_nodes (v_top v')) x = Some p /\
          t_sel (v_top v') = [p]) /\
    (forall q : Id,
        view_parent (t_nodes (v_top v)) x = Some q ->
        q <> "" ->
        mem q (tree_ids (v_top v)) = true ->
        exists v' : View,
          run (collab rejects) (EMS.newchild x) w =
            ([CmTopTreeParent x; CmHighlight (AStr q)],
             Returned tt (set_cm w v')) /\
          t_base (v_top v') = t_base (v_top v) /\
          t_base (v_bot v') = t_base (v_bot v) /\
          view_parent (t_nodes (v_top v')) x = Some q /\
          t_sel (v_top v') = [q]).
Proof.
  intros rejects w v x Hcm. split.
  - intros p itx itp Hroot Hx Hp Hfp Hne.
    pose proof (@tree_rebase_to_parent (w_store w) v x p itx itp Hx Hp Hfp) as Hreb.
    assert (Hxp : view_parent (build (w_store w) p) x = Some p)
      by (eapply build_child; eassumption).
    assert (Hpp : view_parent (build (w_store w) p) p = Some "")
      by (eapply build_root; exact Hfp).
    assert (Hmem : mem p (map n_id (build (w_store w) p)) = true)
      by (rewrite mem_nodes, Hpp; reflexivity).
    exists (highlight (AStr p) (tree_rebase (w_store w) x v)). split.
    + rewrite (@newchild_run rejects x w v Hcm). rewrite Hroot.
      cbn [String.eqb]. cbv zeta. rewrite Hreb. cbn [v_top t_nodes].
      rewrite Hxp. reflexivity.
    + rewrite Hreb. cbn [highlight v_top v_bot]. unfold highlight_tree, tree_ids.
      cbn [t_nodes]. rewrite Hmem. cbn [t_base t_nodes t_sel].
      rewrite record_base_id, (find_item_id _ _ Hfp). repeat split; assumption.
  - intros q Hq Hne Hmem.
    exists (highlight (AStr q) v). split.
    + rewrite (@newchild_run rejects x w v Hcm). rewrite Hq.
      destruct (String.eqb q "") eqn:E; [| reflexivity].
      apply String.eqb_eq in E. contradiction.
    + cbn [highlight v_top v_bot]. unfold highlight_tree. rewrite Hmem.
      cbn [t_base t_nodes t_sel]. repeat split. exact Hq.
Qed.

Lemma newchild_highlights_parent_witness :
  (exists v' : View,
      run (collab no_cycles) (EMS.newchild "station") Sample.below_station =
        ([CmTopTreeParent "station"; CmTopTreeRebase "station";
          CmTopTreeParent "station"; CmHighlight (AStr "evac")],
         Returned tt (set_cm Sample.below_station v')) /\
      doc_id (t_base (v_top v')) = Some "evac" /\
      doc_id (t_base (v_bot v')) = Some "evac" /\
      view_parent (t_nodes (v_top v')) "evac" = Some "" /\
      view_parent (t_nodes (v_top v')) "station" = Some "evac" /\
      t_sel (v_top v') = ["evac"]) /\
  (exists v' : View,
      run (collab no_cycles) (EMS.newchild "alice") Sample.ready =
        ([CmTopTreeParent "alice"; CmHighlight (AStr "station")],
         Returned tt (set_cm Sample.ready v')) /\
      t_base (v_top v') = t_base (v_top (Sample.view_of Sample.ready)) /\
      t_base (v_bot v') = t_base (v_bot (Sample.view_of Sample.ready)) /\
      view_parent (t_nodes (v_top v')) "alice" = Some "station" /\
      t_sel (v_top v') = ["station"]).
Proof.
  split.
  - apply (proj1 (@newchild_highlights_parent no_cycles Sample.below_station
                    (Sample.view_of Sample.below_station) "station" eq_refl)
             "evac"
             (mkItem "station" "Station" [("Display Name", "Station A")] (Some "evac"))
             (mkItem "evac" "Evacuation" [("Display Name", "Evacuation")] None));
      try reflexivity.
    discriminate.
  - apply (proj2 (@newchild_highlights_parent no_cycles Sample.ready
                    (Sample.view_of Sample.ready) "alice" eq_refl)
             "station");
      try reflexivity.
    discriminate.
Defined.

(** C4: [delete] of item [x], gone from the store, with a parent chain
    that starts with [p].  If [x] is the base, the base is first replaced by
    [p]'s record fetched from the store, then come refresh, highlight of
    [p] and open: afterwards [p]'s record is the base of both trees and [p]
    is selected and open.  If [x] is not the base, refresh, highlight of [p]
    and open run with no rebase, and a base that is still a stored item
    stays the base.  In both cases [x] is in neither tree afterwards. *)
Theorem delete_with_parent_chain :
  forall (rejects : Store -> Id -> Id -> option string)
         (w : World) (v : View) (b x : Id) (p : string)
         (chain : list string) (extra : list Arg),
    w_cm w = Some v ->
    doc_id (t_base (v_top v)) = Some b ->
    find_item (w_store w) x = None ->
    (x = b ->
     forall itp : Item,
       find_item (w_store w) p = Some itp ->
       exists v' : View,
         run (collab rejects) (EMS.delete (AStr x :: AList (p :: chain) :: extra)) w =
           ([CmBase; DbItemGet p EMS.base_fields;
             CmSetBase (record itp EMS.base_fields);
             CmRefresh; CmHighlight (AStr p); CmOpen],
            Returned tt (set_cm w v')) /\
         t_base (v_top v') = record itp EMS.base_fields /\
         t_base (v_bot v') = record itp EMS.base_fields /\
         doc_id (t_base (v_top v')) = Some p /\
         t_sel (v_top v') = [p] /\
         In p (t_open (v_top v')) /\
         ~ In x (tree_ids (v_top v')) /\
         ~ In x (tree_ids (v_bot v'))) /\
    (x <> b ->
     exists v' : View,
       run (collab rejects) (EMS.delete (AStr x :: AList (p :: chain) :: extra)) w =
         ([CmBase; CmRefresh; CmHighlight (AStr p); CmOpen],
          Returned tt (set_cm w v')) /\
       (live (w_store w) (t_base (v_top v)) = true ->
        t_base (v_top v') = t_base (v_top v)) /\
       (live (w_store w) (t_base (v_bot v)) = true ->
        t_base (v_bot v') = t_base (v_bot v)) /\
       ~ In x (tree_ids (v_top v')) /\
       ~ In x (tree_ids (v_bot v'))).
Proof.
  intros rejects w v b x p chain extra Hcm Hb Hgone. split.
  - intros Hxb itp Hfp. subst x.
    assert (Hid : it_id itp = p) by (eapply find_item_id; exact Hfp).
    assert (Hlive : live (w_store w) (record itp EMS.base_fields) = true)
      by (eapply record_live; rewrite Hid; exact Hfp).
    set (d := record itp EMS.base_fields) in *.
    set (s := w_store w) in *.
    assert (Hset : set_base s d v =
                   mkView (mkTree d (t_home (v_top v)) (build s p) [] [])
                          (mkTree d (t_home (v_bot v)) (build s p) [] [])).
    { unfold set_base, rebuild. cbn [t_base t_home t_open t_sel].
      rewrite Hlive. cbn [negb filter]. unfold root_id, d.
      rewrite record_base_id, Hid. reflexivity. }
    assert (Hsame : refresh s (set_base s d v) = set_base s d v)
      by (unfold refresh, set_base; cbn [v_top v_bot]; rewrite !rebuild_twice; reflexivity).
    assert (Hmem : mem p (tree_ids (v_top (set_base s d v))) = true).
    { rewrite Hset. unfold tree_ids. cbn [v_top t_nodes].
      rewrite mem_nodes, (@build_root s p itp Hfp). reflexivity. }
    exists (open (highlight (AStr p) (set_base s d v))). split.
    + rewrite (@delete_run rejects (AStr b) p chain extra w v b Hcm Hb).
      cbn [py_eq_str]. rewrite String.eqb_refl.
      unfold item_get. fold s. rewrite Hfp. fold d. rewrite Hsame. reflexivity.
    + destruct (highlight_open_nodes (AStr p) (set_base s d v)) as [Hn1 [Hn2 [Hb1 Hb2]]].
      destruct (highlight_open_selected p (set_base s d v) Hmem) as [_ [Hs Ho]].
      rewrite Hb1, Hb2. unfold tree_ids. rewrite Hn1, Hn2.
      split; [rewrite Hset; reflexivity |].
      split; [rewrite Hset; reflexivity |].
      split; [rewrite Hset; cbn [v_top t_base]; unfold d;
              rewrite record_base_id, Hid; reflexivity |].
      split; [exact Hs |]. split; [exact Ho |].
      split; apply rebuild_nodes_stored; exact Hgone.
  - intro Hne.
    exists (open (highlight (AStr p) (refresh (w_store w) v))). split.
    + rewrite (@delete_run rejects (AStr x) p chain extra w v b Hcm Hb).
      cbn [py_eq_str]. destruct (String.eqb x b) eqn:E; [| reflexivity].
      apply String.eqb_eq in E. contradiction.
    + destruct (highlight_open_nodes (AStr p) (refresh (w_store w) v))
        as [Hn1 [Hn2 [Hb1 Hb2]]].
      rewrite Hb1, Hb2. unfold tree_ids. rewrite Hn1, Hn2.
      split; [intro Hl; cbn; rewrite Hl; reflexivity |].
      split; [intro Hl; cbn; rewrite Hl; reflexivity |].
      split; apply rebuild_nodes_stored; exact Hgone.
Qed.

Lemma delete_with_parent_chain_witness :
  (exists v' : View,
      run (collab no_cycles) (EMS.delete [AStr "evac"; AList ["station"]])
          Sample.evac_deleted =
        ([CmBase; DbItemGet "station" EMS.base_fields;
          CmSetBase [("_id", "station"); ("Display Name", "Station A")];
          CmRefresh; CmHighlight (AStr "station"); CmOpen],
         Returned tt (set_cm Sample.evac_deleted v')) /\
      t_base (v_top v') = [("_id", "station"); ("Display Name", "Station A")] /\
      t_base (v_bot v') = [("_id", "station"); ("Display Name", "Station A")] /\
      doc_id (t_base (v_top v')) = Some "station" /\
      t_sel (v_top v') = ["station"] /\
      In "station" (t_open (v_top v')) /\
      ~ In "evac" (tree_ids (v_top v')) /\
      ~ In "evac" (tree_ids (v_bot v'))) /\
  (exists v' : View,
      run (collab no_cycles) (EMS.delete [AStr "alice"; AList ["station"; "evac"]])
          Sample.alice_deleted =
        ([CmBase; CmRefresh; CmHighlight (AStr "station"); CmOpen],
         Returned tt (set_cm Sample.alice_deleted v')) /\
      t_base (v_top v') = t_base (v_top (Sample.view_of Sample.alice_deleted)) /\
      t_base (v_bot v') = t_base (v_bot (Sample.view_of Sample.alice_deleted)) /\
      ~ In "alice" (tree_ids (v_top v')) /\
      ~ In "alice" (tree_ids (v_bot v'))).
Proof.
  split.
  - apply (proj1 (@delete_with_parent_chain no_cycles Sample.evac_deleted
                    (Sample.view_of Sample.evac_deleted) "evac" "evac" "station"
                    [] [] eq_refl eq_refl eq_refl)
             eq_refl
             (mkItem "station" "Station" [("Display Name", "Station A")] None)
             eq_refl).
  - destruct (proj2 (@delete_with_parent_chain no_cycles Sample.alice_deleted
                       (Sample.view_of Sample.alice_deleted) "evac" "alice" "station"
                       ["evac"] [] eq_refl eq_refl eq_refl)
                ltac:(discriminate))
      as [v' [Hrun [Htop [Hbot [Hx1 Hx2]]]]].
    exists v'. split; [exact Hrun |].
    split; [apply Htop; reflexivity |].
    split; [apply Hbot; reflexivity |].
    split; assumption.
Defined.

(* ------------------------------------------------------------------------ *)
(** ** Further properties of the callbacks, for any collaborators *)

Section MoreProgramFacts.

Variable W : Type.
Variable handle : forall c : Call, W -> Outcome (Reply c) W.

Lemma guarded_trace :
  forall (A : Type) (P Q : Call -> bool) (seen : bool) (p : Prog A),
    guarded P Q seen p ->
    forall w, comes_after seen P Q (trace handle p w) = true.
Proof.
  intros A P Q seen p Hg.
  induction Hg as [seen a | seen e | seen c k Hc Hk IH]; intro w;
    unfold trace; cbn [run].
  - reflexivity.
  - reflexivity.
  - assert (Hhead : negb (Q c) || seen = true)
      by (destruct (Q c); [rewrite Hc by reflexivity |]; reflexivity).
    destruct (handle c w) as [r w' | e w'].
    + specialize (IH r w'). unfold trace in IH.
      destruct (run handle (k r) w') as [t o]. cbn [fst comes_after] in *.
      rewrite Hhead, IH. reflexivity.
    + cbn [fst comes_after]. rewrite Hhead. reflexivity.
Qed.

Lemma budget_trace :
  forall (A : Type) (P : Call -> bool) (n : nat) (p : Prog A),
    budget P n p ->
    forall w, List.length (filter P (trace handle p w)) <= n.
Proof.
  intros A P n p Hb.
  induction Hb as [n a | n e | n c k Hc Hk IH | n c k Hc Hk IH]; intro w;
    unfold trace; cbn [run].
  - apply Nat.le_0_l.
  - apply Nat.le_0_l.
  - destruct (handle c w) as [r w' | e w'].
    + specialize (IH r w'). unfold trace in IH.
      destruct (run handle (k r) w') as [t o]. cbn [fst filter] in *.
      rewrite Hc. exact IH.
    + cbn [fst filter]. rewrite Hc. apply Nat.le_0_l.
  - destruct (handle c w) as [r w' | e w'].
    + specialize (IH r w'). unfold trace in IH.
      destruct (run handle (k r) w') as [t o]. cbn [fst filter] in *.
      rewrite Hc. cbn [List.length]. apply le_n_S. exact IH.
    + cbn [fst filter]. rewrite Hc. cbn [List.length filter]. apply le_n_S, Nat.le_0_l.
Qed.

(** What [comes_after] says, call by call. *)
Lemma comes_after_spec :
  forall (P Q : Call -> bool) (t : list Call) (seen : bool),
    comes_after seen P Q t = true ->
    forall pre c post,
      t = pre ++ c :: post -> Q c = true -> seen = true \/ existsb P pre = true.
Proof.
  intros P Q t. induction t as [| a t IH]; intros seen H pre c post Ht Hq.
  - destruct pre; discriminate Ht.
  - cbn [comes_after] in H. apply andb_true_iff in H. destruct H as [Hhead Hrest].
    destruct pre as [| b pre]; cbn in Ht; injection Ht as -> ->.
    + rewrite Hq in Hhead. cbn in Hhead. left. exact Hhead.
    + destruct (IH _ Hrest pre c post eq_refl Hq) as [Hs | Hp].
      * apply orb_true_iff in Hs. destruct Hs as [Hs | Hs].
        -- left. exact Hs.
        -- right. cbn [existsb]. rewrite Hs. reflexivity.
      * right. cbn [existsb]. rewrite Hp. apply orb_true_r.
Qed.

End MoreProgramFacts.

Ltac unfold_python :=
  unfold unpack_first, unpack_first_two, unpack_single, py_len, py_iter, py_getitem.

Ltac guarded_cases :=
  repeat (unfold_python; cbn;
          first [ apply guarded_ret
                | apply guarded_raise
                | apply guarded_do;
                  [ cbn; intro; first [reflexivity | discriminate] | intro ]
                | match goal with
                  | |- context [match ?x with _ => _ end] => destruct x
                  end ]).

Ltac budget_cases :=
  repeat (unfold_python; cbn;
          first [ apply budget_ret
                | apply budget_raise
                | apply budget_skip; [reflexivity | intro]
                | apply budget_spend; [reflexivity | intro]
                | match goal with
                  | |- context [match ?x with _ => _ end] => destruct x
                  end ]).


(** X2: in [save], [delete] and [show] a highlight is never made before a
    refresh: in every run, each [highlight] call has a [refresh] call
    before it. *)
Theorem refresh_comes_before_highlight :
  forall (W : Type) (handle : forall c : Call, W -> Outcome (Reply c) W)
         (args : list Arg) (w : W),
    comes_after false is_refresh is_highlight (trace handle (EMS.save args) w) = true /\
    comes_after false is_refresh is_highlight (trace handle (EMS.delete args) w) = true /\
    comes_after false is_refresh is_highlight (trace handle (EMS.show args) w) = true.
Proof.
  intros W handle args w. repeat split; apply guarded_trace.
  - unfold EMS.save. guarded_cases.
  - unfold EMS.delete. guarded_cases.
  - unfold EMS.show. guarded_cases.
Qed.

(** X3: no callback opens the selection without having highlighted a node
    first: in every run of every callback, each [open] call has a
    [highlight] call before it. *)
Theorem highlight_comes_before_open :
  forall (W : Type) (handle : forall c : Call, W -> Outcome (Reply c) W)
         (r : Request) (w : W),
    comes_after false is_highlight is_open (trace handle (serve r) w) = true.
Proof.
  intros W handle r w. apply guarded_trace.
  destruct r as [args | target | args | args | args |]; cbn [serve].
  - unfold EMS.item_select. guarded_cases.
  - unfold EMS.newchild. guarded_cases.
  - unfold EMS.delete. guarded_cases.
  - unfold EMS.save. guarded_cases.
  - unfold EMS.show. guarded_cases.
  - unfold EMS.refresh. guarded_cases.
Qed.

(** X4: serving one request costs at most one refresh, one rebase, one
    highlight, one read of the selection and one store mutation, whatever
    the request and whatever the collaborators answer. *)
Theorem at_most_one_of_each_per_request :
  forall (W : Type) (handle : forall c : Call, W -> Outcome (Reply c) W)
         (r : Request) (w : W),
    List.length (filter is_refresh (trace handle (serve r) w)) <= 1 /\
    List.length (filter is_rebase (trace handle (serve r) w)) <= 1 /\
    List.length (filter is_highlight (trace handle (serve r) w)) <= 1 /\
    List.length (filter is_selection_read (trace handle (serve r) w)) <= 1 /\
    List.length (filter is_store_mutation (trace handle (serve r) w)) <= 1.
Proof.
  intros W handle r w.
  repeat split; apply budget_trace;
    destruct r as [args | target | args | args | args |]; cbn [serve];
    unfold EMS.item_select, EMS.newchild, EMS.delete, EMS.save, EMS.show, EMS.refresh;
    budget_cases.
Qed.

Section Steps.

Variable W : Type.
Variable handle : forall c : Call, W -> Outcome (Reply c) W.

Lemma chars_length : forall s : string, List.length (chars s) = String.length s.
Proof.
  induction s as [| ch s IH]; cbn; [reflexivity | rewrite IH; reflexivity].
Qed.

(** [len] counts what iteration yields. *)
Lemma py_len_iter :
  forall (a : Arg) (l : list string),
    py_iter a = Ret l -> py_len a = Ret (List.length l).
Proof.
  intros a l H. destruct a as [| s | l' | d]; cbn in *; try discriminate;
    injection H as <-.
  - rewrite chars_length. reflexivity.
  - reflexivity.
  - rewrite length_map. reflexivity.
Qed.

(** The three view commands that end [delete] and [save]. *)
Lemma closing_calls :
  forall (p : string) (w : W),
    exists (t : list Call) (o : Outcome unit W),
      run handle (call CmRefresh ;; call (CmHighlight (AStr p)) ;; call CmOpen) w = (t, o) /\
      (t = [CmRefresh] \/ t = [CmRefresh; CmHighlight (AStr p)] \/
       t = [CmRefresh; CmHighlight (AStr p); CmOpen]) /\
      (forall e w', o = Raised e w' -> exists c w0, handle c w0 = Raised e w').
Proof.
  intros p w. unfold call. cbn [bind run].
  destruct (handle CmRefresh w) as [[] w1 | e1 w1] eqn:H1.
  - cbn [bind run].
    destruct (handle (CmHighlight (AStr p)) w1) as [[] w2 | e2 w2] eqn:H2.
    + cbn [bind run].
      destruct (handle CmOpen w2) as [[] w3 | e3 w3] eqn:H3.
      * eexists _, _. split; [reflexivity |]. split; [auto |].
        intros e w' H. discriminate H.
      * eexists _, _. split; [reflexivity |]. split; [auto |].
        intros e w' H. injection H as <- <-. eauto.
    + eexists _, _. split; [reflexivity |]. split; [auto |].
      intros e w' H. injection H as <- <-. eauto.
  - eexists _, _. split; [reflexivity |]. split; [auto |].
    intros e w' H. injection H as <- <-. eauto.
Qed.

(** What [delete] does with a chain whose first element is [p], whatever
    the collaborators are. *)
Lemma delete_steps :
  forall (id parents : Arg) (p : string) (more : list string)
         (extra : list Arg) (w : W),
    py_iter parents = Ret (p :: more) ->
    run handle (EMS.delete (id :: parents :: extra)) w =
    match handle CmBase w with
    | Raised e w1 => ([CmBase], Raised e w1)
    | Returned base w1 =>
        match doc_get base "_id" with
        | None => ([CmBase], Raised (KeyError "_id") w1)
        | Some b =>
            if py_eq_str id b
            then
              match handle (DbItemGet p EMS.base_fields) w1 with
              | Raised e w2 => ([CmBase; DbItemGet p EMS.base_fields], Raised e w2)
              | Returned d w2 =>
                  match handle (CmSetBase d) w2 with
                  | Raised e w3 =>
                      ([CmBase; DbItemGet p EMS.base_fields; CmSetBase d], Raised e w3)
                  | Returned _ w3 =>
                      let (t, o) :=
                        run handle (call CmRefresh ;; call (CmHighlight (AStr p)) ;;
                                    call CmOpen) w3 in
                      (CmBase :: DbItemGet p EMS.base_fields :: CmSetBase d :: t, o)
                  end
              end
            else
              let (t, o) :=
                run handle (call CmRefresh ;; call (CmHighlight (AStr p)) ;;
                            call CmOpen) w1 in
              (CmBase :: t, o)
        end
    end.
Proof.
  intros id parents p more extra w Hiter.
  unfold EMS.delete. cbn [unpack_first_two bind].
  rewrite (py_len_iter _ Hiter). cbn [bind List.length Nat.ltb Nat.leb].
  rewrite Hiter. cbn [bind unpack_first]. unfold call at 1. cbn [bind run].
  destruct (handle CmBase w) as [base w1 | e w1]; [| reflexivity].
  unfold py_getitem. destruct (doc_get base "_id") as [b |]; [| reflexivity].
  cbn [bind]. destruct (py_eq_str id b).
  - unfold call at 1. cbn [bind run].
    destruct (handle (DbItemGet p EMS.base_fields) w1) as [d w2 | e w2]; [| reflexivity].
    unfold call at 1. cbn [bind run].
    destruct (handle (CmSetBase d) w2) as [[] w3 | e w3]; [| reflexivity].
    destruct (run handle _ w3) as [t o]. reflexivity.
  - cbn [bind]. reflexivity.
Qed.

(** What [save] does with an item id, whatever the collaborators are. *)
Lemma save_steps :
  forall (x : Arg) (rest : list Arg) (w : W),
    is_not_none x = true ->
    run handle (EMS.save (x :: rest)) w =
    match handle CmSelections w with
    | Raised e w1 => ([CmSelections], Raised e w1)
    | Returned sel w1 =>
        match sel with
        | [] => ([CmSelections], Raised ValueError w1)
        | c :: _ =>
            match handle (DbContainerAdd c x) w1 with
            | Raised e w2 => ([CmSelections; DbContainerAdd c x], Raised e w2)
            | Returned _ w2 =>
                let (t, o) :=
                  run handle (call CmRefresh ;; call (CmHighlight (AStr c)) ;;
                              call CmOpen) w2 in
                (CmSelections :: DbContainerAdd c x :: t, o)
            end
        end
    end.
Proof.
  intros x rest w Hx.
  unfold EMS.save. cbn [unpack_first bind]. rewrite Hx.
  unfold call at 1. cbn [bind run].
  destruct (handle CmSelections w) as [sel w1 | e w1]; [| reflexivity].
  destruct sel as [| c sel]; [reflexivity |].
  cbn [unpack_first bind]. unfold call at 1. cbn [bind run].
  destruct (handle (DbContainerAdd c x) w1) as [[] w2 | e w2]; [| reflexivity].
  cbn [bind]. unfold call. cbn [bind run].
  destruct (handle CmRefresh w2) as [[] w3 | e3 w3]; [| reflexivity].
  destruct (handle (CmHighlight (AStr c)) w3) as [[] w4 | e4 w4]; [| reflexivity].
  destruct (handle CmOpen w4) as [[] w5 | e5 w5]; reflexivity.
Qed.

(** What [delete] does with an empty chain. *)
Lemma delete_steps_empty :
  forall (id parents : Arg) (extra : list Arg) (w : W),
    py_len parents = Ret 0 ->
    run handle (EMS.delete (id :: parents :: extra)) w = run handle (call CmRefresh) w.
Proof.
  intros id parents extra w H.
  unfold EMS.delete. cbn [unpack_first_two bind]. rewrite H. reflexivity.
Qed.

(** A program that starts with a call makes that call. *)
Lemma first_call :
  forall (A : Type) (c : Call) (k : Reply c -> Prog A) (w : W),
    exists t, trace handle (Do c k) w = c :: t.
Proof.
  intros A c k w. unfold trace. cbn [run].
  destruct (handle c w) as [r w' | e w'].
  - destruct (run handle (k r) w') as [t o]. exists t. reflexivity.
  - exists []. reflexivity.
Qed.

(** A sequence with a first element has a positive length. *)
Lemma py_iter_nonempty :
  forall (a : Arg) (n : nat),
    py_len a = Ret (S n) -> exists p more, py_iter a = Ret (p :: more).
Proof.
  intros a n H. destruct a as [| s | l | d]; cbn in *; try discriminate.
  - destruct s as [| ch s]; [discriminate | cbn; eauto].
  - destruct l as [| p l]; [discriminate | eauto].
  - destruct d as [| [k v] d]; [discriminate | cbn; eauto].
Qed.


End Steps.

(** X5: [prepare] on a store that has no record of the category
    "Evacuation" fails when it unpacks the empty result: the query is the
    only call made, no widget is built, and the callback ends with a
    [ValueError]. *)
Theorem prepare_without_base_record :
  forall (W : Type) (handle : forall c : Call, W -> Outcome (Reply c) W) (w w1 : W),
    handle (DbItemsQuery "Evacuation" EMS.base_fields) w = Returned [] w1 ->
    run handle EMS.prepare w =
    ([DbItemsQuery "Evacuation" EMS.base_fields], Raised ValueError w1).
Proof.
  intros W handle w w1 H. unfold EMS.prepare. unfold call at 1.
  cbn [bind run]. rewrite H. reflexivity.
Qed.

Lemma prepare_without_base_record_witness :
  run (collab no_cycles) EMS.prepare (mkWorld [] None None) =
  ([DbItemsQuery "Evacuation" EMS.base_fields],
   Raised ValueError (mkWorld [] None None)).
Proof.
  apply (@prepare_without_base_record World (collab no_cycles)
           (mkWorld [] None None) (mkWorld [] None None)).
  reflexivity.
Defined.

(** X6: [delete] with an empty chain of parents (an empty list, string or
    dict) is a plain refresh: it runs exactly as [refresh] does, with no
    look at the base and no highlight. *)
Theorem delete_with_empty_chain_is_refresh :
  forall (W : Type) (handle : forall c : Call, W -> Outcome (Reply c) W)
         (id parents : Arg) (extra : list Arg) (w : W),
    py_len parents = Ret 0 ->
    run handle (EMS.delete (id :: parents :: extra)) w = run handle EMS.refresh w.
Proof.
  intros W handle id parents extra w H.
  rewrite (@delete_steps_empty W handle id parents extra w H). reflexivity.
Qed.

Lemma delete_with_empty_chain_is_refresh_witness :
  run (collab no_cycles) (EMS.delete [AStr "bob"; AList []]) Sample.at_station =
  run (collab no_cycles) EMS.refresh Sample.at_station.
Proof.
  apply (@delete_with_empty_chain_is_refresh World (collab no_cycles)
           (AStr "bob") (AList []) [] Sample.at_station).
  reflexivity.
Defined.

(** X7: [save] without an item id ([None]) is a plain refresh: it runs
    exactly as [refresh] does, without reading the selection and without
    touching the store. *)
Theorem save_none_is_refresh :
  forall (W : Type) (handle : forall c : Call, W -> Outcome (Reply c) W)
         (rest : list Arg) (w : W),
    run handle (EMS.save (ANone :: rest)) w = run handle EMS.refresh w.
Proof.
  intros W handle rest w. unfold EMS.save, EMS.refresh, call.
  cbn [unpack_first bind run is_not_none].
  destruct (handle CmRefresh w) as [[] w1 | e w1]; reflexivity.
Qed.




(** X11: [delete] with a non-empty chain, when the base record that the
    container manager hands out has no "_id" field, ends with a
    [KeyError] right after asking for the base: nothing is refreshed or
    highlighted. *)
Theorem delete_with_base_without_id :
  forall (W : Type) (handle : forall c : Call, W -> Outcome (Reply c) W)
         (id parents : Arg) (p : string) (more : list string) (extra : list Arg)
         (w w1 : W) (base : Doc),
    py_iter parents = Ret (p :: more) ->
    handle CmBase w = Returned base w1 ->
    doc_get base "_id" = None ->
    run handle (EMS.delete (id :: parents :: extra)) w =
    ([CmBase], Raised (KeyError "_id") w1).
Proof.
  intros W handle id parents p more extra w w1 base Hiter Hbase Hkey.
  rewrite (@delete_steps W handle id parents p more extra w Hiter).
  rewrite Hbase, Hkey. reflexivity.
Qed.

Lemma delete_with_base_without_id_witness :
  let w := mkWorld [] (Some (mkView (mkTree [] [] [] [] []) (mkTree [] [] [] [] []))) None in
  run (collab no_cycles) (EMS.delete [AStr "alice"; AList ["station"]]) w =
  ([CmBase], Raised (KeyError "_id") w).
Proof.
  apply (@delete_with_base_without_id World (collab no_cycles)
           (AStr "alice") (AList ["station"]) "station" [] []
           (mkWorld [] (Some (mkView (mkTree [] [] [] [] []) (mkTree [] [] [] [] []))) None)
           (mkWorld [] (Some (mkView (mkTree [] [] [] [] []) (mkTree [] [] [] [] []))) None)
           []);
    reflexivity.
Defined.

(** X12: [delete] of the item that is the base, when fetching the first
    parent's record fails, stops at that fetch: the base is not replaced and
    nothing is refreshed, highlighted or opened. *)
Theorem delete_stops_when_parent_lookup_fails :
  forall (W : Type) (handle : forall c : Call, W -> Outcome (Reply c) W)
         (id parents : Arg) (p : string) (more : list string) (extra : list Arg)
         (w w1 w2 : W) (base : Doc) (b : string) (e : Exn),
    py_iter parents = Ret (p :: more) ->
    handle CmBase w = Returned base w1 ->
    doc_get base "_id" = Some b ->
    py_eq_str id b = true ->
    handle (DbItemGet p EMS.base_fields) w1 = Raised e w2 ->
    run handle (EMS.delete (id :: parents :: extra)) w =
    ([CmBase; DbItemGet p EMS.base_fields], Raised e w2).
Proof.
  intros W handle id parents p more extra w w1 w2 base b e Hiter Hbase Hkey Heq Hget.
  rewrite (@delete_steps W handle id parents p more extra w Hiter).
  rewrite Hbase, Hkey, Heq, Hget. reflexivity.
Qed.

Lemma delete_stops_when_parent_lookup_fails_witness :
  run (collab no_cycles) (EMS.delete [AStr "evac"; AList ["ghost"]]) Sample.ready =
  ([CmBase; DbItemGet "ghost" EMS.base_fields], Raised (NotFound "ghost") Sample.ready).
Proof.
  apply (@delete_stops_when_parent_lookup_fails World (collab no_cycles)
           (AStr "evac") (AList ["ghost"]) "ghost" [] []
           Sample.ready Sample.ready Sample.ready
           [("_id", "evac"); ("Display Name", "Evacuation")] "evac" (NotFound "ghost"));
    reflexivity.
Defined.

Ltac in_cases H :=
  cbn [In fst] in H;
  repeat match type of H with
         | _ \/ _ => destruct H as [H | H]
         | False => destruct H
         end;
  try discriminate H.

(** X13: [delete] replaces the base only when the deleted id is the id of
    the current base, and only by the record that the store has just
    returned for the first parent of the chain. *)
Theorem delete_sets_base_to_fetched_parent :
  forall (W : Type) (handle : forall c : Call, W -> Outcome (Reply c) W)
         (args : list Arg) (w : W) (d : Doc),
    In (CmSetBase d) (trace handle (EMS.delete args) w) ->
    exists id parents extra p more base b w1 w2,
      args = id :: parents :: extra /\
      py_iter parents = Ret (p :: more) /\
      handle CmBase w = Returned base w1 /\
      doc_get base "_id" = Some b /\
      py_eq_str id b = true /\
      handle (DbItemGet p EMS.base_fields) w1 = Returned d w2.
Proof.
  intros W handle args w d Hin. unfold trace in Hin.
  destruct args as [| id [| parents extra]]; [destruct Hin | destruct Hin |].
  destruct (py_len parents) as [n | e | c k] eqn:Hlen;
    [ | destruct parents; cbn in Hlen; try discriminate Hlen; destruct Hin
      | destruct parents; cbn in Hlen; discriminate Hlen ].
  destruct n as [| n].
  - rewrite (@delete_steps_empty W handle id parents extra w Hlen) in Hin.
    unfold call in Hin. cbn [run] in Hin.
    destruct (handle CmRefresh w) as [[] w1 | e w1]; in_cases Hin.
  - destruct (py_iter_nonempty _ Hlen) as [p [more Hiter]].
    rewrite (@delete_steps W handle id parents p more extra w Hiter) in Hin.
    destruct (handle CmBase w) as [base w1 | e w1] eqn:Hbase; [| in_cases Hin].
    destruct (doc_get base "_id") as [b |] eqn:Hkey; [| in_cases Hin].
    destruct (py_eq_str id b) eqn:Heq.
    + destruct (handle (DbItemGet p EMS.base_fields) w1) as [d0 w2 | e w2] eqn:Hget;
        [| in_cases Hin].
      assert (Hd : d = d0).
      { destruct (handle (CmSetBase d0) w2) as [[] w3 | e w3].
        - destruct (closing_calls handle p w3) as [t [o [Hrun [Ht _]]]].
          rewrite Hrun in Hin.
          destruct Ht as [-> | [-> | ->]]; in_cases Hin; congruence.
        - in_cases Hin. congruence. }
      subst d0. exists id, parents, extra, p, more, base, b, w1, w2.
      repeat split; assumption.
    + destruct (closing_calls handle p w1) as [t [o [Hrun [Ht _]]]].
      rewrite Hrun in Hin. destruct Ht as [-> | [-> | ->]]; in_cases Hin.
Qed.

Lemma delete_sets_base_to_fetched_parent_witness :
  exists id parents extra p more base b w1 w2,
    [AStr "evac"; AList ["station"]] = id :: parents :: extra /\
    py_iter parents = Ret (p :: more) /\
    collab no_cycles CmBase Sample.evac_deleted = Returned base w1 /\
    doc_get base "_id" = Some b /\
    py_eq_str id b = true /\
    collab no_cycles (DbItemGet p EMS.base_fields) w1 =
      Returned [("_id", "station"); ("Display Name", "Station A")] w2.
Proof.
  apply (@delete_sets_base_to_fetched_parent World (collab no_cycles)
           [AStr "evac"; AList ["station"]] Sample.evac_deleted
           [("_id", "station"); ("Display Name", "Station A")]).
  vm_compute. right. right. left. reflexivity.
Defined.

(** X14: the only edge [save] ever asks the store to add goes from the
    first selected container to the item id it was given. *)
Theorem save_adds_only_the_selected_edge :
  forall (W : Type) (handle : forall c : Call, W -> Outcome (Reply c) W)
         (args : list Arg) (w : W) (c : string) (x : Arg),
    In (DbContainerAdd c x) (trace handle (EMS.save args) w) ->
    exists rest sel w1,
      args = x :: rest /\
      is_not_none x = true /\
      handle CmSelections w = Returned (c :: sel) w1.
Proof.
  intros W handle args w c x Hin. unfold trace in Hin.
  destruct args as [| x0 rest]; [destruct Hin |].
  destruct (is_not_none x0) eqn:Hx.
  - rewrite (@save_steps W handle x0 rest w Hx) in Hin.
    destruct (handle CmSelections w) as [sel w1 | e w1] eqn:Hsel; [| in_cases Hin].
    destruct sel as [| c0 sel]; [in_cases Hin |].
    assert (Hcx : c = c0 /\ x = x0).
    { destruct (handle (DbContainerAdd c0 x0) w1) as [[] w2 | e w2].
      - destruct (closing_calls handle c0 w2) as [t [o [Hrun [Ht _]]]].
        rewrite Hrun in Hin.
        destruct Ht as [-> | [-> | ->]]; in_cases Hin; split; congruence.
      - in_cases Hin. split; congruence. }
    destruct Hcx as [-> ->]. exists rest, sel, w1. repeat split; assumption.
  - destruct x0; try discriminate Hx.
    unfold EMS.save, call in Hin. cbn [unpack_first bind run is_not_none] in Hin.
    destruct (handle CmRefresh w) as [[] w1 | e w1]; in_cases Hin.
Qed.

Lemma save_adds_only_the_selected_edge_witness :
  exists rest sel w1,
    [AStr "bob"] = AStr "bob" :: rest /\
    is_not_none (AStr "bob") = true /\
    collab no_cycles CmSelections Sample.at_station = Returned ("station" :: sel) w1.
Proof.
  apply (@save_adds_only_the_selected_edge World (collab no_cycles)
           [AStr "bob"] Sample.at_station "station" (AStr "bob")).
  vm_compute. right. left. reflexivity.
Defined.

(** X15: [save] highlights nothing but the container it has just asked
    the store to put the item into; the selection is read once, before the
    refresh, and not read again for the highlight. *)
Theorem save_highlights_the_container_it_added_to :
  forall (W : Type) (handle : forall c : Call, W -> Outcome (Reply c) W)
         (args : list Arg) (w : W) (item : Arg),
    In (CmHighlight item) (trace handle (EMS.save args) w) ->
    exists c x rest,
      args = x :: rest /\
      item = AStr c /\
      In (DbContainerAdd c x) (trace handle (EMS.save args) w).
Proof.
  intros W handle args w item Hin. unfold trace in *.
  destruct args as [| x rest]; [destruct Hin |].
  destruct (is_not_none x) eqn:Hx.
  - rewrite (@save_steps W handle x rest w Hx) in *.
    destruct (handle CmSelections w) as [sel w1 | e w1]; [| in_cases Hin].
    destruct sel as [| c sel]; [in_cases Hin |].
    destruct (handle (DbContainerAdd c x) w1) as [[] w2 | e w2]; [| in_cases Hin].
    destruct (closing_calls handle c w2) as [t [o [Hrun [Ht _]]]].
    rewrite Hrun in *. exists c, x, rest.
    destruct Ht as [-> | [-> | ->]]; in_cases Hin;
      (split; [reflexivity |]; split; [congruence | cbn; auto]).
  - destruct x; try discriminate Hx.
    unfold EMS.save, call in Hin. cbn [unpack_first bind run is_not_none] in Hin.
    destruct (handle CmRefresh w) as [[] w1 | e w1]; in_cases Hin.
Qed.

Lemma save_highlights_the_container_it_added_to_witness :
  exists c x rest,
    [AStr "bob"] = x :: rest /\
    AStr "station" = AStr c /\
    In (DbContainerAdd c x)
       (trace (collab no_cycles) (EMS.save [AStr "bob"]) Sample.at_station).
Proof.
  apply (@save_highlights_the_container_it_added_to World (collab no_cycles)
           [AStr "bob"] Sample.at_station (AStr "station")).
  vm_compute. right. right. right. left. reflexivity.
Defined.





(** X18: [newchild] asks for a rebase exactly when the first lookup of the
    target's parent in the upper tree returns the empty string. *)
Theorem newchild_rebases_iff_no_parent_in_view :
  forall (W : Type) (handle : forall c : Call, W -> Outcome (Reply c) W)
         (target : string) (w w1 : W) (p : string),
    handle (CmTopTreeParent target) w = Returned p w1 ->
    existsb is_rebase (trace handle (EMS.newchild target) w) = String.eqb p "".
Proof.
  intros W handle target w w1 p Hp.
  unfold EMS.newchild, call, trace. cbn [bind run]. rewrite Hp.
  destruct (String.eqb p "").
  - cbn [bind run].
    destruct (handle (CmTopTreeRebase target) w1) as [[] w2 | e w2]; [| reflexivity].
    destruct (handle (CmTopTreeParent target) w2) as [q w3 | e w3]; [| reflexivity].
    destruct (handle (CmHighlight (AStr q)) w3) as [[] w4 | e w4]; reflexivity.
  - cbn [bind run].
    destruct (handle (CmHighlight (AStr p)) w1) as [[] w2 | e w2]; reflexivity.
Qed.

Lemma newchild_rebases_iff_no_parent_in_view_witness :
  existsb is_rebase (trace (collab no_cycles) (EMS.newchild "alice") Sample.ready) =
  String.eqb "station" "".
Proof.
  apply (@newchild_rebases_iff_no_parent_in_view World (collab no_cycles)
           "alice" Sample.ready Sample.ready "station").
  reflexivity.
Defined.

(** X19: after a rebase [newchild] looks the parent up once more and
    highlights whatever that second lookup returns, without testing it
    again: when it is still the empty string, the empty id is what gets
    highlighted. *)
Theorem newchild_highlights_second_lookup :
  forall (W : Type) (handle : forall c : Call, W -> Outcome (Reply c) W)
         (target : string) (w w1 w2 w3 : W) (q : string),
    handle (CmTopTreeParent target) w = Returned "" w1 ->
    handle (CmTopTreeRebase target) w1 = Returned tt w2 ->
    handle (CmTopTreeParent target) w2 = Returned q w3 ->
    trace handle (EMS.newchild target) w =
    [CmTopTreeParent target; CmTopTreeRebase target; CmTopTreeParent target;
     CmHighlight (AStr q)].
Proof.
  intros W handle target w w1 w2 w3 q H1 H2 H3.
  unfold EMS.newchild, call, trace. cbn [bind run]. rewrite H1.
  cbn [String.eqb bind run]. rewrite H2. cbn [bind run]. rewrite H3.
  cbn [bind run].
  destruct (handle (CmHighlight (AStr q)) w3) as [[] w4 | e w4]; reflexivity.
Qed.

Lemma newchild_highlights_second_lookup_witness :
  trace (collab no_cycles) (EMS.newchild "evac") Sample.ready =
  [CmTopTreeParent "evac"; CmTopTreeRebase "evac"; CmTopTreeParent "evac";
   CmHighlight (AStr "")].
Proof.
  apply (@newchild_highlights_second_lookup World (collab no_cycles)
           "evac" Sample.ready Sample.ready Sample.ready Sample.ready "");
    reflexivity.
Defined.

(** X20: [newchild] calls nothing but the upper tree's parent lookup and
    rebase, both for its target, and the highlight of a string id: it never
    refreshes, never opens a node, never reads the selection, never touches
    the edit pane. *)
Theorem newchild_calls_only_parent_rebase_highlight :
  forall (W : Type) (handle : forall c : Call, W -> Outcome (Reply c) W)
         (target : string) (w : W),
    existsb (fun c => match c with
                      | CmTopTreeParent t => negb (String.eqb t target)
                      | CmTopTreeRebase t => negb (String.eqb t target)
                      | CmHighlight (AStr _) => false
                      | _ => true
                      end)
            (trace handle (EMS.newchild target) w) = false.
Proof.
  intros W handle target w. apply quiet_trace.
  unfold EMS.newchild, call. cbn [bind].
  apply quiet_do; [rewrite String.eqb_refl; reflexivity | intro p].
  destruct (String.eqb p ""); cbn [bind].
  - apply quiet_do; [rewrite String.eqb_refl; reflexivity | intros _].
    apply quiet_do; [rewrite String.eqb_refl; reflexivity | intro q].
    cbn [bind]. apply quiet_do; [reflexivity | intro; apply quiet_ret].
  - apply quiet_do; [reflexivity | intro; apply quiet_ret].
Qed.

(** X21: [show] highlights nothing but the id it was given, and only an id
    that is not [None]. *)
Theorem show_highlights_the_given_id :
  forall (W : Type) (handle : forall c : Call, W -> Outcome (Reply c) W)
         (args : list Arg) (w : W) (item : Arg),
    In (CmHighlight item) (trace handle (EMS.show args) w) ->
    exists rest, args = item :: rest /\ is_not_none item = true.
Proof.
  intros W handle args w item Hin. unfold trace in Hin.
  destruct args as [| id rest]; [destruct Hin |].
  destruct (is_not_none id) eqn:Hid.
  - unfold EMS.show, call in Hin. cbn [unpack_first bind] in Hin. rewrite Hid in Hin.
    cbn [bind run] in Hin.
    destruct (handle CmRefresh w) as [[] w1 | e w1]; [| in_cases Hin].
    destruct (handle (CmHighlight id) w1) as [[] w2 | e w2];
      in_cases Hin; injection Hin as <-; eauto.
  - destruct id; try discriminate Hid. destruct Hin.
Qed.

Lemma show_highlights_the_given_id_witness :
  exists rest, [AStr "station"] = AStr "station" :: rest /\
               is_not_none (AStr "station") = true.
Proof.
  apply (@show_highlights_the_given_id World (collab no_cycles)
           [AStr "station"] Sample.ready (AStr "station")).
  vm_compute. right. left. reflexivity.
Defined.
